(** * Webhook / workflow invocation flow of the Obsidian chat client

    A shallow embedding of
    - the four API client calls
      ([src/lib/apis/webhooks/index.ts], lines 54-201),
    - the workflow response renderer: [detectDataType],
      [getTableHeaders], [formatValue] (same file, lines 203-372),
    - the workflow form modal: the reactive reset block, [validateForm],
      [handleSubmit] (same file, lines 822-1152),
    - the slash-command palette
      ([src/lib/components/chat/MessageInput/Commands/Webhooks.svelte]),
    - the workflow dropdown menu: [loadWorkflows], [selectWorkflow]
      ([src/unnamed/part_001], lines 1-60),
    - the Markdown table of a chat message: the CSV export and the
      fitting of body rows to the header
      ([src/lib/apis/webhooks/index.ts], lines 456-490 and 565-572),
    - the build-and-run script ([src/unnamed/part_002]),
    followed by the properties the specification states about them and
    by further properties of the code. *)

From Stdlib Require Import ZArith Bool Ascii String Lia.
From stdpp Require Import gmap strings list fin_maps.
From Stdlib Require Import Sorted.

Local Open Scope string_scope.
Local Open Scope Z_scope.
Local Open Scope list_scope.
Local Set Warnings "-register-all".

(** ** JavaScript values *)

Module Js.

(** The values [JSON.parse] produces, plus [undefined].  Numbers are
    integers: the code only ever tests a number for being zero.  An
    object carries its own properties in the order [Object.keys]
    enumerates them; property names are ordinary dictionary keys (no
    array indices, nothing inherited from [Object.prototype]). *)
Inductive JsVal : Type :=
| JUndefined
| JNull
| JBool (b : bool)
| JNum (n : Z)
| JStr (s : string)
| JArr (items : list JsVal)
| JObj (props : list (string * JsVal)).

(** [!!v] of JavaScript. *)
Definition truthy (v : JsVal) : bool :=
  match v with
  | JUndefined | JNull => false
  | JBool b => b
  | JNum n => negb (Z.eqb n 0)
  | JStr s => negb (String.eqb s "")
  | JArr _ | JObj _ => true
  end.

(** [a || b]. *)
Definition js_or (a b : JsVal) : JsVal := if truthy a then a else b.

(** [typeof v === 'object'] (which holds of [null] and of arrays). *)
Definition typeof_object (v : JsVal) : bool :=
  match v with
  | JNull | JArr _ | JObj _ => true
  | _ => false
  end.

(** [Array.isArray(v)]. *)
Definition isArray (v : JsVal) : bool :=
  match v with JArr _ => true | _ => false end.

(** [v === undefined]. *)
Definition is_undefined (v : JsVal) : bool :=
  match v with JUndefined => true | _ => false end.

(** [v === null]. *)
Definition is_null (v : JsVal) : bool :=
  match v with JNull => true | _ => false end.

(** Objects used as dictionaries: association lists in enumeration
    order. *)
Fixpoint obj_get {V : Type} (k : string) (o : list (string * V)) : option V :=
  match o with
  | [] => None
  | (k', v) :: o' => if String.eqb k k' then Some v else obj_get k o'
  end.

(** [o[k] = v]: an existing property keeps its place, a new one goes
    last. *)
Fixpoint obj_set {V : Type} (k : string) (v : V) (o : list (string * V))
  : list (string * V) :=
  match o with
  | [] => [(k, v)]
  | (k', v') :: o' =>
      if String.eqb k k' then (k, v) :: o' else (k', v') :: obj_set k v o'
  end.

(** [Object.keys(o)]. *)
Definition keys {V : Type} (o : list (string * V)) : list string := map fst o.

(** [row[k]] on an object: [undefined] when the property is missing. *)
Definition prop (o : list (string * JsVal)) (k : string) : JsVal :=
  match obj_get k o with
  | Some v => v
  | None => JUndefined
  end.

(** What a [throw] carries. *)
Inductive Thrown : Type :=
| ThrowVal (v : JsVal)          (* a plain value: a parsed error body, a message *)
| ThrowErr (message : string)   (* an Error object: fetch's TypeError, json()'s SyntaxError *)
| ThrowNullRead.                (* the TypeError of reading a property of null/undefined *)

(** A settled promise. *)
Inductive Settled (A : Type) : Type :=
| Fulfilled (a : A)
| Rejected (t : Thrown).
Arguments Fulfilled {A} a.
Arguments Rejected {A} t.

(** [err.k] for the names the client reads ([detail], [message]).
    Reading a property of [null] or [undefined] throws; primitives and
    arrays have no such property; an Error object has [message]. *)
Definition read (err : Thrown) (k : string) : Settled JsVal :=
  match err with
  | ThrowVal JUndefined | ThrowVal JNull => Rejected ThrowNullRead
  | ThrowVal (JObj o) => Fulfilled (prop o k)
  | ThrowVal _ => Fulfilled JUndefined
  | ThrowErr m => Fulfilled (if String.eqb k "message" then JStr m else JUndefined)
  | ThrowNullRead => Fulfilled JUndefined
  end.

End Js.
Import Js.

(** ** Data model ([src/lib/apis/webhooks/index.ts], lines 6-49) *)

Inductive FieldType : Type :=
| TText | TNumber | TDate | TSelect | TTextarea | TFile.

Record WebhookFormField : Type := {
  name : string;
  label : string;
  type : FieldType;
  required : bool;
  placeholder : option string;
  options : option (list string);
  default : option string;
  accept : option string;
  multiple : option bool
}.

Record WebhookConfig : Type := {
  enabled : bool;
  workflow_only : option bool;
  cfg_slash_command : option string;
  cfg_form_title : option string;
  form_description : option string;
  form_fields : option (list WebhookFormField)
}.

Record WebhookResponse : Type := {
  success : bool;
  message : option string;
  data : JsVal;
  file_url : option string;
  file_name : option string
}.

Record WebhookModel : Type := {
  id : string;
  model_name : string;
  slash_command : option string;
  form_title : option string
}.

(** A browser [File]; only its identity matters here. *)
Record File : Type := { file_label : string; file_size : Z }.

(** ** The network *)

(** One constructor per endpoint, carrying what the call sends. *)
Inductive Request : Type :=
| GetConfig (token modelId : string)
| PostInvoke (token modelId : string) (form_data : gmap string string)
             (chat_id : option string)
| PostInvokeWithFiles (token modelId : string) (form_data : gmap string string)
                      (files : list File) (chat_id : option string)
| GetModels (token : string).

(** Everything observable a run leaves behind. *)
Inductive Event : Type :=
| Fetched (r : Request)
| ConsoleError (t : Thrown)
| ToastSuccess (msg : string)
| ToastError (msg : string)
| DispatchSuccess (r : WebhookResponse)
| DispatchClose
| WorkflowSelect (modelId formTitle formDescription : string)
                 (formFields : list WebhookFormField).

(** [res.json()]: the parsed body, or the SyntaxError it rejects with. *)
Inductive Body (A : Type) : Type :=
| Parsed (a : A)
| Unparsable (message : string).
Arguments Parsed {A} a.
Arguments Unparsable {A} message.

(** What [fetch] settles to.  A successful body has the type the call
    declares; an error body is any JSON. *)
Inductive FetchOutcome (A : Type) : Type :=
| NetworkFailure (message : string)            (* fetch itself rejects *)
| HttpOk (body : Body A)                       (* res.ok *)
| HttpFail (status : Z) (body : Body JsVal).   (* !res.ok *)
Arguments NetworkFailure {A} message.
Arguments HttpOk {A} body.
Arguments HttpFail {A} status body.

(** The backend, as an oracle that sees the history of the session. *)
Record Server : Type := {
  config_reply : list Event -> string -> string -> FetchOutcome WebhookConfig;
  invoke_reply : list Event -> Request -> FetchOutcome WebhookResponse;
  models_reply : list Event -> string -> FetchOutcome (list WebhookModel)
}.

(** Computations that talk to the backend and append to the event log. *)
Definition Net (A : Type) : Type := Server -> list Event -> A * list Event.

Definition ret {A : Type} (a : A) : Net A := fun _ log => (a, log).

Definition bind {A B : Type} (m : Net A) (k : A -> Net B) : Net B :=
  fun srv log => let (a, log') := m srv log in k a srv log'.

Definition emit (e : Event) : Net unit := fun _ log => (tt, log ++ [e]).

Declare Scope net_scope.
Delimit Scope net_scope with net.
Notation "'let!' x ':=' m 'in' k" := (bind m (fun x => k))
  (at level 10, x name, m at level 100, k at level 200) : net_scope.
Local Open Scope net_scope.

(** [fetch(url, ...)]: log the request, take the backend's answer. *)
Definition fetch {A : Type} (r : Request)
  (reply : Server -> list Event -> FetchOutcome A) : Net (FetchOutcome A) :=
  fun srv log => (reply srv log, log ++ [Fetched r]).

(** ** The API client ([src/lib/apis/webhooks/index.ts], lines 54-201) *)

(** [.then(async (res) => { if (!res.ok) throw await res.json();
                            return res.json(); })] *)
Definition then_json {A : Type} (o : FetchOutcome A) : Settled A :=
  match o with
  | NetworkFailure m => Rejected (ThrowErr m)
  | HttpOk (Parsed a) => Fulfilled a
  | HttpOk (Unparsable m) => Rejected (ThrowErr m)
  | HttpFail _ (Parsed v) => Rejected (ThrowVal v)
  | HttpFail _ (Unparsable m) => Rejected (ThrowErr m)
  end.

(** The tail shared by the four calls:
    [.catch((err) => { error = <pick err>; console.error(err); return <dflt>; });
     if (error) { throw error; }  return res;]
    [pick] may itself throw, in which case the handler's promise rejects
    and the [await] rethrows. *)
Definition catch_tail {A : Type} (pick : Thrown -> Settled JsVal) (dflt : A)
  (r : Settled A) : Net (Settled A) :=
  match r with
  | Fulfilled a => ret (Fulfilled a)
  | Rejected err =>
      match pick err with
      | Rejected t => ret (Rejected t)
      | Fulfilled error =>
          let! _ := emit (ConsoleError err) in
          ret (if truthy error then Rejected (ThrowVal error) else Fulfilled dflt)
      end
  end.

(** [err.detail] *)
Definition pick_detail (err : Thrown) : Settled JsVal := read err "detail".

(** [err.detail || err.message || 'Unknown error'] *)
Definition pick_detail_message (err : Thrown) : Settled JsVal :=
  match read err "detail" with
  | Rejected t => Rejected t
  | Fulfilled d =>
      if truthy d then Fulfilled d
      else match read err "message" with
           | Rejected t => Rejected t
           | Fulfilled m => Fulfilled (js_or m (JStr "Unknown error"))
           end
  end.

(** The [null] the config call returns in place of a config is [None]. *)
Definition getWebhookConfig (token modelId : string)
  : Net (Settled (option WebhookConfig)) :=
  let! o := fetch (GetConfig token modelId)
              (fun srv log => config_reply srv log token modelId) in
  catch_tail pick_detail None
    (match then_json o with
     | Fulfilled c => Fulfilled (Some c)
     | Rejected t => Rejected t
     end).

(** As above, [None] is the [null] of the catch handler. *)
Definition invokeWebhook (token modelId : string)
  (formData : gmap string string) (chatId : option string)
  : Net (Settled (option WebhookResponse)) :=
  let req := PostInvoke token modelId formData chatId in
  let! o := fetch req (fun srv log => invoke_reply srv log req) in
  catch_tail pick_detail_message None
    (match then_json o with
     | Fulfilled c => Fulfilled (Some c)
     | Rejected t => Rejected t
     end).

(** [if (chatId) multipartFormData.append('chat_id', chatId)] *)
Definition nonempty (s : option string) : option string :=
  match s with
  | Some c => if String.eqb c "" then None else Some c
  | None => None
  end.

Definition invokeWebhookWithFiles (token modelId : string)
  (formData : gmap string string) (files : list File) (chatId : option string)
  : Net (Settled (option WebhookResponse)) :=
  let req := PostInvokeWithFiles token modelId formData files (nonempty chatId) in
  let! o := fetch req (fun srv log => invoke_reply srv log req) in
  catch_tail pick_detail_message None
    (match then_json o with
     | Fulfilled c => Fulfilled (Some c)
     | Rejected t => Rejected t
     end).

Definition getWebhookEnabledModels (token : string)
  : Net (Settled (list WebhookModel)) :=
  let! o := fetch (GetModels token) (fun srv log => models_reply srv log token) in
  catch_tail pick_detail [] (then_json o).

(** ** Built-ins of the JavaScript engine

    What the components call but do not define.  The properties below
    hold for every engine. *)
Class Engine : Type := {
  trim : string -> string;                    (* String.prototype.trim *)
  toLowerCase : string -> string;             (* String.prototype.toLowerCase *)
  localeCompare : string -> string -> Z;      (* String.prototype.localeCompare *)
  JSON_stringify : JsVal -> string;           (* JSON.stringify on an object or array *)
  String_of_number : Z -> string              (* String(n) *)
}.

(** [s.includes(q)] *)
Fixpoint includes (s q : string) : bool :=
  String.prefix q s ||
  match s with
  | EmptyString => false
  | String _ s' => includes s' q
  end.

(** [s || dflt] for an optional string. *)
Definition or_str (s : option string) (dflt : string) : string :=
  match s with
  | Some c => if String.eqb c "" then dflt else c
  | None => dflt
  end.

(** ** The response renderer ([index.ts], lines 203-372) *)

Module Renderer.

Inductive DataType : Type := Table | KeyValue | ListOf | Raw | Empty.

(** [data.length] and [data[0]] of an array. *)
Definition items_of (v : JsVal) : list JsVal :=
  match v with JArr l => l | _ => [] end.

Definition first (v : JsVal) : JsVal := nth 0 (items_of v) JUndefined.

Definition detectDataType (data : JsVal) : DataType :=
  if negb (truthy data) then Empty
  else if isArray data && (0 <? Z.of_nat (length (items_of data))) then
    if typeof_object (first data) && negb (is_null (first data)) then Table
    else ListOf
  else if typeof_object data && negb (is_null data) && negb (isArray data)
  then KeyValue
  else Raw.

(** [allKeys.add(key)] on a [Set], which iterates in insertion order. *)
Definition set_add (allKeys : list string) (key : string) : list string :=
  if existsb (String.eqb key) allKeys then allKeys else allKeys ++ [key].

Definition getTableHeaders (data : list (list (string * JsVal))) : list string :=
  if (Z.of_nat (length data) =? 0) then []
  else fold_left (fun allKeys item => fold_left set_add (keys item) allKeys)
                 data [].

Definition formatValue `{Engine} (value : JsVal) : string :=
  match value with
  | JNull | JUndefined => "-"
  | JBool b => if b then "✓" else "✗"
  | JArr _ | JObj _ => JSON_stringify value
  | JStr s => s
  | JNum n => String_of_number n
  end.

(** The cell the table template shows: [formatValue(row[header])]. *)
Definition cell `{Engine} (row : list (string * JsVal)) (header : string) : string :=
  formatValue (prop row header).

End Renderer.

(** ** The form modal ([index.ts], lines 822-1152) *)

Module FormModal.

Record Modal : Type := {
  show : bool;
  modelId : string;
  formFields : list WebhookFormField;
  chatId : option string;
  formData : gmap string string;
  fileData : list (string * list File);
  loading : bool;
  errors : gmap string string
}.

Definition with_state (m : Modal) (fd : gmap string string)
  (fl : list (string * list File)) (errs : gmap string string) : Modal :=
  {| show := show m; modelId := modelId m; formFields := formFields m;
     chatId := chatId m; formData := fd; fileData := fl;
     loading := loading m; errors := errs |}.

Definition with_errors (m : Modal) (errs : gmap string string) : Modal :=
  with_state m (formData m) (fileData m) errs.

Definition with_files (m : Modal) (fl : list (string * list File)) : Modal :=
  with_state m (formData m) fl (errors m).

Definition with_loading (m : Modal) (b : bool) : Modal :=
  {| show := show m; modelId := modelId m; formFields := formFields m;
     chatId := chatId m; formData := formData m; fileData := fileData m;
     loading := b; errors := errors m |}.

Definition with_show (m : Modal) (b : bool) : Modal :=
  {| show := b; modelId := modelId m; formFields := formFields m;
     chatId := chatId m; formData := formData m; fileData := fileData m;
     loading := loading m; errors := errors m |}.

Definition is_file (field : WebhookFormField) : bool :=
  match type field with TFile => true | _ => false end.

(** [$: hasFileFields = formFields.some((f) => f.type === 'file')] *)
Definition hasFileFields (m : Modal) : bool := existsb is_file (formFields m).

(** One turn of the loop of the reset block. *)
Definition seed (acc : gmap string string * list (string * list File))
  (field : WebhookFormField) : gmap string string * list (string * list File) :=
  if is_file field then (acc.1, obj_set (name field) [] acc.2)
  else (<[name field := or_str (default field) ""]> acc.1, acc.2).

(** [$: if (show && formFields) { formData = {}; fileData = {}; errors = {};
                                  for (const field of formFields) ... }]
    An array is always truthy, so [show] alone decides. *)
Definition reset (m : Modal) : Modal :=
  if show m then
    let acc := fold_left seed (formFields m) (∅, []) in
    with_state m acc.1 acc.2 ∅
  else m.

(** The parent makes the modal visible with a schema; the reactive block
    runs because [show] (or [formFields]) changed. *)
Definition open (fields : list WebhookFormField) (m : Modal) : Modal :=
  reset {| show := true; modelId := modelId m; formFields := fields;
           chatId := chatId m; formData := formData m; fileData := fileData m;
           loading := loading m; errors := errors m |}.

(** The two tests of [validateForm]:
    [!fileData[field.name] || fileData[field.name].length === 0] and
    [!formData[field.name]?.trim()]. *)
Definition unfilled `{Engine} (m : Modal) (field : WebhookFormField) : bool :=
  if is_file field then
    match obj_get (name field) (fileData m) with
    | None => true
    | Some fs => (Z.of_nat (length fs) =? 0)
    end
  else
    match formData m !! name field with
    | None => true
    | Some v => String.eqb (trim v) ""
    end.

Definition check `{Engine} (m : Modal) (acc : bool * gmap string string)
  (field : WebhookFormField) : bool * gmap string string :=
  if required field then
    if unfilled m field
    then (false, <[name field := label field +:+ " is required"]> acc.2)
    else acc
  else acc.

(** Returns [isValid] and the modal with its new [errors]. *)
Definition validateForm `{Engine} (m : Modal) : bool * Modal :=
  let acc := fold_left (check m) (formFields m) (true, ∅) in
  (acc.1, with_errors m acc.2).

(** [input.files] is [None] when the browser gives [null]. *)
Definition handleFileChange (fieldName : string) (files : option (list File))
  (multiple : bool) (m : Modal) : Modal :=
  match files with
  | None => m
  | Some newFiles =>
      if multiple then
        let old := match obj_get fieldName (fileData m) with
                   | Some fs => fs
                   | None => []
                   end in
        with_files m (obj_set fieldName (old ++ newFiles) (fileData m))
      else with_files m (obj_set fieldName newFiles (fileData m))
  end.

(** [fs.filter((_, i) => i !== index)] *)
Fixpoint remove_at {A : Type} (index : nat) (fs : list A) : list A :=
  match fs, index with
  | [], _ => []
  | _ :: fs', O => fs'
  | f :: fs', S i => f :: remove_at i fs'
  end.

(** [None]: [fileData[fieldName]] is undefined and [.filter] throws. *)
Definition removeFile (fieldName : string) (index : nat) (m : Modal) : option Modal :=
  match obj_get fieldName (fileData m) with
  | None => None
  | Some fs => Some (with_files m (obj_set fieldName (remove_at index fs) (fileData m)))
  end.

(** [for (const fieldName in fileData) allFiles.push(...fileData[fieldName])] *)
Definition allFiles (m : Modal) : list File := flat_map snd (fileData m).

(** The [catch (error)] branch of [handleSubmit]. *)
Definition on_error (m : Modal) (error : Thrown) : Net Modal :=
  let! _ := emit (ConsoleError error) in
  let! _ := emit (ToastError (match error with
                              | ThrowVal (JStr s) => s
                              | _ => "Failed to execute workflow"
                              end)) in
  ret m.

(** What [handleSubmit] does with the settled call, inside its [try]. *)
Definition on_settled (m : Modal) (r : Settled (option WebhookResponse)) : Net Modal :=
  match r with
  | Fulfilled (Some response) =>
      if success response then
        let! _ := emit (DispatchSuccess response) in
        let! _ := emit (ToastSuccess
                   (or_str (message response) "Workflow executed successfully")) in
        ret (with_show m false)
      else
        let! _ := emit (ToastError (or_str (message response) "Workflow failed")) in
        ret m
  | Fulfilled None => on_error m ThrowNullRead   (* [response.success] of null *)
  | Rejected error => on_error m error
  end.

(** [token] is [localStorage.token]. *)
Definition handleSubmit `{Engine} (token : string) (m : Modal) : Net Modal :=
  let v := validateForm m in
  if negb v.1 then ret v.2
  else
    let m1 := with_loading v.2 true in
    let! r :=
      (if hasFileFields m1 then
         invokeWebhookWithFiles token (modelId m1) (formData m1) (allFiles m1)
                                (nonempty (chatId m1))
       else
         invokeWebhook token (modelId m1) (formData m1) (nonempty (chatId m1))) in
    let! m2 := on_settled m1 r in
    ret (with_loading m2 false).

Definition handleClose (m : Modal) : Net Modal :=
  let! _ := emit DispatchClose in
  ret (with_show m false).

End FormModal.

(** ** The slash-command palette ([Commands/Webhooks.svelte]) *)

Module Palette.

Record Palette : Type := {
  query : string;
  webhooks : list WebhookModel;
  selectedIdx : Z
}.

(** The predicate handed to [webhooks.filter]. *)
Definition matches `{Engine} (query : string) (w : WebhookModel) : bool :=
  let command := or_str (toLowerCase <$> slash_command w) "" in
  let name := or_str (Some (toLowerCase (model_name w))) "" in
  let q := toLowerCase query in
  includes command q || includes name q.

(** [.sort(cmp)]: a stable insertion sort; [b] moves before [a] only
    when [cmp a b > 0]. *)
Fixpoint insert_sorted {A : Type} (cmp : A -> A -> Z) (a : A) (l : list A) : list A :=
  match l with
  | [] => [a]
  | b :: l' => if cmp a b >? 0 then b :: insert_sorted cmp a l' else a :: b :: l'
  end.

Definition sort {A : Type} (cmp : A -> A -> Z) (l : list A) : list A :=
  fold_right (insert_sorted cmp) [] l.

(** [$: filteredItems = webhooks.filter(...).sort(...)] *)
Definition filteredItems `{Engine} (p : Palette) : list WebhookModel :=
  sort (fun a b => localeCompare (or_str (Some (model_name a)) "")
                                 (or_str (Some (model_name b)) ""))
       (List.filter (matches (query p)) (webhooks p)).

Definition filteredCount `{Engine} (p : Palette) : Z :=
  Z.of_nat (length (filteredItems p)).

Definition with_idx (p : Palette) (i : Z) : Palette :=
  {| query := query p; webhooks := webhooks p; selectedIdx := i |}.

(** The parent assigns the [query] prop.  An assignment of an equal
    string invalidates nothing; otherwise [$: if (query) selectedIdx = 0]
    runs. *)
Definition setQuery (q : string) (p : Palette) : Palette :=
  if String.eqb q (query p) then p
  else
    let p' := {| query := q; webhooks := webhooks p; selectedIdx := selectedIdx p |} in
    if negb (String.eqb q "") then with_idx p' 0 else p'.

Definition selectUp (p : Palette) : Palette :=
  with_idx p (Z.max 0 (selectedIdx p - 1)).

Definition selectDown `{Engine} (p : Palette) : Palette :=
  with_idx p (Z.min (selectedIdx p + 1) (filteredCount p - 1)).

(** [on:mousemove] of the button at position [idx]. *)
Definition mousemove (idx : Z) (p : Palette) : Palette := with_idx p idx.

(** [filteredItems[selectedIdx]], handed to [onSelect] when defined. *)
Definition select `{Engine} (p : Palette) : option WebhookModel :=
  if selectedIdx p <? 0 then None
  else nth_error (filteredItems p) (Z.to_nat (selectedIdx p)).

(** A freshly mounted palette. *)
Definition mount (q : string) (ws : list WebhookModel) : Palette :=
  {| query := q; webhooks := ws; selectedIdx := 0 |}.

End Palette.

(** ** The workflow dropdown menu ([src/unnamed/part_001], lines 1-60) *)

Module Menu.

Record Menu : Type := {
  show : bool;
  loading : bool;
  workflows : list WebhookModel
}.

Definition mounted : Menu := {| show := false; loading := false; workflows := [] |}.

(** [token] is [localStorage.token]. *)
Definition loadWorkflows (token : string) (m : Menu) : Net Menu :=
  if 0 <? Z.of_nat (length (workflows m)) then ret m   (* Already loaded *)
  else
    let m1 := {| show := show m; loading := true; workflows := workflows m |} in
    let! r := getWebhookEnabledModels token in
    match r with
    | Fulfilled ws => ret {| show := show m1; loading := false; workflows := ws |}
    | Rejected e =>
        let! _ := emit (ConsoleError e) in
        ret {| show := show m1; loading := false; workflows := [] |}
    end.

(** The dropdown assigns [show] through [bind:show]; when the value
    changes, [$: if (show) loadWorkflows()] runs. *)
Definition setShow (b : bool) (token : string) (m : Menu) : Net Menu :=
  if Bool.eqb b (show m) then ret m
  else
    let m' := {| show := b; loading := loading m; workflows := workflows m |} in
    if b then loadWorkflows token m' else ret m'.

(** A click on an entry.  [config.enabled] of the [null] a failed
    lookup may resolve to throws, and the [catch] logs it. *)
Definition selectWorkflow (token : string) (workflow : WebhookModel) (m : Menu)
  : Net Menu :=
  let! r := getWebhookConfig token (id workflow) in
  match r with
  | Fulfilled (Some config) =>
      if negb (enabled config) then ret m
      else
        let! _ := emit (WorkflowSelect
                     (id workflow)
                     (or_str (cfg_form_title config)
                             (or_str (Some (model_name workflow)) "Workflow Form"))
                     (or_str (form_description config) "")
                     (match form_fields config with Some fs => fs | None => [] end)) in
        ret {| show := false; loading := loading m; workflows := workflows m |}
  | Fulfilled None =>
      let! _ := emit (ConsoleError ThrowNullRead) in ret m
  | Rejected error =>
      let! _ := emit (ConsoleError error) in ret m
  end.

(** A session: the menu is opened and closed again, [n] times. *)
Fixpoint open_close (n : nat) (token : string) (m : Menu) : Net Menu :=
  match n with
  | O => ret m
  | S n' =>
      let! m1 := setShow true token m in
      let! m2 := setShow false token m1 in
      open_close n' token m2
  end.

End Menu.

(** The requests a log records, oldest first. *)
Definition request_of (e : Event) : option Request :=
  match e with Fetched r => Some r | _ => None end.

Definition requests (log : list Event) : list Request := omap request_of log.

Definition network_calls (log : list Event) : nat := length (requests log).

(** How many times the listing endpoint was called. *)
Definition is_models_call (r : Request) : bool :=
  match r with GetModels _ => true | _ => false end.

Definition models_calls (log : list Event) : nat :=
  length (List.filter is_models_call (requests log)).

(** ** A sample engine and backend, for running the model

    ASCII text only: whitespace is TAB, LF, VT, FF, CR and SPACE,
    letters are A-Z, collation is by code unit. *)
Module Sample.

Definition is_space (c : ascii) : bool :=
  let n := nat_of_ascii c in
  ((9 <=? n) && (n <=? 13) || (n =? 32))%nat.

Fixpoint trimStart (s : string) : string :=
  match s with
  | String c s' => if is_space c then trimStart s' else s
  | EmptyString => EmptyString
  end.

Fixpoint trimEnd (s : string) : string :=
  match s with
  | String c s' =>
      match trimEnd s' with
      | EmptyString => if is_space c then EmptyString else String c EmptyString
      | t => String c t
      end
  | EmptyString => EmptyString
  end.

Definition lower (c : ascii) : ascii :=
  let n := nat_of_ascii c in
  if ((65 <=? n) && (n <=? 90))%nat then ascii_of_nat (n + 32) else c.

Fixpoint map_string (f : ascii -> ascii) (s : string) : string :=
  match s with
  | String c s' => String (f c) (map_string f s')
  | EmptyString => EmptyString
  end.

Definition compare_strings (a b : string) : Z :=
  match String.compare a b with
  | Lt => -1
  | Eq => 0
  | Gt => 1
  end.

(** Decimal digits of a natural number, given enough fuel. *)
Fixpoint digits (fuel n : nat) (acc : string) : string :=
  match fuel with
  | O => acc
  | S fuel' =>
      let acc' := String (ascii_of_nat (48 + n mod 10)) acc in
      if (n / 10 =? 0)%nat then acc' else digits fuel' (n / 10) acc'
  end.

Definition decimal (n : Z) : string :=
  let d := digits (S (Z.to_nat (Z.abs n))) (Z.to_nat (Z.abs n)) "" in
  if n <? 0 then "-" +:+ d else d.

Definition hex_digit (n : nat) : ascii :=
  ascii_of_nat (if (n <? 10)%nat then 48 + n else 87 + n).

(** The escapes of a JSON string literal. *)
Definition escape (c : ascii) : string :=
  let n := nat_of_ascii c in
  if (n =? 34)%nat then String "\" (String c "")
  else if (n =? 92)%nat then String c (String c "")
  else if (n =? 8)%nat then "\b"
  else if (n =? 9)%nat then "\t"
  else if (n =? 10)%nat then "\n"
  else if (n =? 12)%nat then "\f"
  else if (n =? 13)%nat then "\r"
  else if (n <? 32)%nat
       then "\u00" +:+ String (hex_digit (n / 16)) (String (hex_digit (n mod 16)) "")
  else String c "".

Fixpoint escape_all (s : string) : string :=
  match s with
  | String c s' => escape c +:+ escape_all s'
  | EmptyString => EmptyString
  end.

Definition quote (s : string) : string :=
  String (ascii_of_nat 34) (escape_all s +:+ String (ascii_of_nat 34) "").

Fixpoint join (sep : string) (l : list string) : string :=
  match l with
  | [] => ""
  | [x] => x
  | x :: l' => x +:+ sep +:+ join sep l'
  end.

(** [JSON.stringify(v)] without indentation: [undefined] prints as
    [null] inside an array and drops its property inside an object. *)
Fixpoint stringify (v : JsVal) : string :=
  match v with
  | JUndefined | JNull => "null"
  | JBool b => if b then "true" else "false"
  | JNum n => decimal n
  | JStr s => quote s
  | JArr l => "[" +:+ join "," (map stringify l) +:+ "]"
  | JObj o =>
      "{" +:+ join "," (flat_map (fun kv =>
                          match kv with
                          | (k, w) =>
                              if is_undefined w then []
                              else [quote k +:+ ":" +:+ stringify w]
                          end) o) +:+ "}"
  end.

#[export] Instance engine : Engine := {|
  trim := fun s => trimEnd (trimStart s);
  toLowerCase := map_string lower;
  localeCompare := compare_strings;
  JSON_stringify := stringify;
  String_of_number := decimal
|}.

(** A backend that answers every call with the same outcome. *)
Definition constant_server (c : FetchOutcome WebhookConfig)
  (r : FetchOutcome WebhookResponse) (ms : FetchOutcome (list WebhookModel))
  : Server :=
  {| config_reply := fun _ _ _ => c;
     invoke_reply := fun _ _ => r;
     models_reply := fun _ _ => ms |}.

Definition down : Server :=
  constant_server (NetworkFailure "Failed to fetch")
                  (NetworkFailure "Failed to fetch")
                  (NetworkFailure "Failed to fetch").

End Sample.

(** ** Vocabulary of the properties *)

(** [body.detail] of a parsed error body. *)
Definition detail_of (body : JsVal) : JsVal :=
  match body with
  | JObj o => prop o "detail"
  | _ => JUndefined
  end.

(** [body.message] of a parsed error body. *)
Definition message_of (body : JsVal) : JsVal :=
  match body with
  | JObj o => prop o "message"
  | _ => JUndefined
  end.

Definition nullish (v : JsVal) : bool := is_null v || is_undefined v.

(** A backend whose listing endpoint answers 500 with a detail body. *)
Definition models_500 : Server :=
  Sample.constant_server
    (NetworkFailure "Failed to fetch") (NetworkFailure "Failed to fetch")
    (HttpFail 500 (Parsed (JObj [("detail", JStr "Internal Server Error")]))).

(** A backend whose config endpoint answers 404 with the body [{}]. *)
Definition config_404 : Server :=
  Sample.constant_server
    (HttpFail 404 (Parsed (JObj [])))
    (NetworkFailure "Failed to fetch") (NetworkFailure "Failed to fetch").

(** A gateway in front of the backend answers 502 with an HTML page. *)
Definition config_502_html : Server :=
  Sample.constant_server
    (HttpFail 502 (Unparsable "Unexpected token < in JSON at position 0"))
    (NetworkFailure "Failed to fetch") (NetworkFailure "Failed to fetch").

(** The invoke endpoint answers 400 with [{"detail":"bad input"}]. *)
Definition invoke_400 : Server :=
  Sample.constant_server
    (NetworkFailure "Failed to fetch")
    (HttpFail 400 (Parsed (JObj [("detail", JStr "bad input")])))
    (NetworkFailure "Failed to fetch").

(** The invoke endpoint answers 400 with the JSON body [null]. *)
Definition invoke_400_null : Server :=
  Sample.constant_server
    (NetworkFailure "Failed to fetch")
    (HttpFail 400 (Parsed JNull))
    (NetworkFailure "Failed to fetch").

(** The message the invoke calls pick from a parsed error body. *)
Definition priority_message (body : JsVal) : JsVal :=
  js_or (detail_of body) (js_or (message_of body) (JStr "Unknown error")).

(** [typeof x === 'object' && x !== null]: an object or an array. *)
Definition non_null_object (x : JsVal) : bool :=
  typeof_object x && negb (is_null x).

(** The union of a sequence of keys in first-seen order: every key once,
    at the place of its first occurrence. *)
Fixpoint first_seen (l : list string) : list string :=
  match l with
  | [] => []
  | k :: l' => k :: List.filter (fun k' => negb (String.eqb k' k)) (first_seen l')
  end.



(** A modal whose fields hold leftovers of an earlier use. *)
Definition text_field (n l : string) (req : bool) (d : option string) : WebhookFormField :=
  {| name := n; label := l; type := TText; required := req; placeholder := None;
     options := None; default := d; accept := None; multiple := None |}.

Definition file_field (n l : string) (req : bool) : WebhookFormField :=
  {| name := n; label := l; type := TFile; required := req; placeholder := None;
     options := None; default := None; accept := None; multiple := None |}.

Definition report_pdf : File := {| file_label := "report.pdf"; file_size := 2048 |}.

Definition used_modal : FormModal.Modal :=
  {| FormModal.show := false; FormModal.modelId := "model";
     FormModal.formFields := [];
     FormModal.chatId := None;
     FormModal.formData := {[ "x" := "stale" ]};
     FormModal.fileData := [("doc", [report_pdf])];
     FormModal.loading := false;
     FormModal.errors := {[ "x" := "X is required" ]} |}.

(** A required field that validation finds empty. *)
Definition fails `{Engine} (m : FormModal.Modal) (f : WebhookFormField) : bool :=
  required f && FormModal.unfilled m f.




(** A backend whose invoke endpoints answer [{success: true, message: "ok"}]. *)
Definition invoke_ok : Server :=
  Sample.constant_server
    (NetworkFailure "Failed to fetch")
    (HttpOk (Parsed {| success := true; message := Some "ok"; data := JUndefined;
                       file_url := None; file_name := None |}))
    (NetworkFailure "Failed to fetch").

(** The modal of the end-to-end scenario: one required text field [x]. *)
Definition scenario (value : string) : FormModal.Modal :=
  {| FormModal.show := true; FormModal.modelId := "model";
     FormModal.formFields := [text_field "x" "X" true None];
     FormModal.chatId := None;
     FormModal.formData := {[ "x" := value ]};
     FormModal.fileData := [];
     FormModal.loading := false;
     FormModal.errors := ∅ |}.


(** The request of a valid submission. *)
Definition submitted (token : string) (m : FormModal.Modal) : Request :=
  if FormModal.hasFileFields m
  then PostInvokeWithFiles token (FormModal.modelId m) (FormModal.formData m)
                           (FormModal.allFiles m) (nonempty (FormModal.chatId m))
  else PostInvoke token (FormModal.modelId m) (FormModal.formData m)
                  (nonempty (FormModal.chatId m)).

(** Two workflow models and a palette whose cursor sits on the second. *)
Definition report_model : WebhookModel :=
  {| id := "report-generator"; model_name := "Report Generator";
     slash_command := Some "/report"; form_title := Some "Generate Report" |}.

Definition review_model : WebhookModel :=
  {| id := "review"; model_name := "Review"; slash_command := Some "/review";
     form_title := None |}.

Definition palette_at_second : Palette.Palette :=
  {| Palette.query := "re"; Palette.webhooks := [report_model; review_model];
     Palette.selectedIdx := 1 |}.

(** The cursor is on an item of the filtered list. *)
Definition in_range `{Engine} (p : Palette.Palette) : Prop :=
  0 <= Palette.selectedIdx p <= Palette.filteredCount p - 1.


(** A backend with no workflow configured, and one with a workflow. *)
Definition no_workflows : Server :=
  Sample.constant_server (NetworkFailure "Failed to fetch")
                         (NetworkFailure "Failed to fetch")
                         (HttpOk (Parsed [])).

Definition one_workflow : Server :=
  Sample.constant_server (NetworkFailure "Failed to fetch")
                         (NetworkFailure "Failed to fetch")
                         (HttpOk (Parsed [report_model])).

(** Two file fields; a file is picked for the second, then for the first. *)
Definition notes_txt : File := {| file_label := "notes.txt"; file_size := 12 |}.

Definition two_uploads : FormModal.Modal :=
  FormModal.handleFileChange "a" (Some [notes_txt]) false
    (FormModal.handleFileChange "b" (Some [report_pdf]) true
       (FormModal.open [file_field "a" "A" false; file_field "b" "B" false] used_modal)).

(** ** Vocabulary of the further properties *)

(** What an invoke call settles to, and what its catch handler logs,
    as a function of the backend's answer. *)
Definition invoke_result (o : FetchOutcome WebhookResponse)
  : Settled (option WebhookResponse) :=
  match then_json o with
  | Fulfilled c => Fulfilled (Some c)
  | Rejected err =>
      match pick_detail_message err with
      | Rejected t => Rejected t
      | Fulfilled e => Rejected (ThrowVal e)
      end
  end.

Definition invoke_console (o : FetchOutcome WebhookResponse) : list Event :=
  match then_json o with
  | Fulfilled _ => []
  | Rejected err =>
      match pick_detail_message err with
      | Rejected _ => []
      | Fulfilled _ => [ConsoleError err]
      end
  end.

(** [m || 'Unknown error'] for an exception message. *)
Definition message_or_unknown (m : string) : JsVal :=
  JStr (if String.eqb m "" then "Unknown error" else m).

(** At most one console error. *)
Definition console_tail (tail : list Event) : Prop :=
  tail = [] \/ exists e, tail = [ConsoleError e].

(** The invoke endpoints answer 422 with a list as [detail], as the
    backend framework does for a malformed payload. *)
Definition invoke_422 : Server :=
  Sample.constant_server
    (NetworkFailure "Failed to fetch")
    (HttpFail 422 (Parsed (JObj [("detail", JArr [JObj [("msg", JStr "field required")]])])))
    (NetworkFailure "Failed to fetch").

(** The invoke endpoints answer [{success: false, message: "quota exceeded"}]. *)
Definition invoke_refused : Server :=
  Sample.constant_server
    (NetworkFailure "Failed to fetch")
    (HttpOk (Parsed {| success := false; message := Some "quota exceeded";
                       data := JUndefined; file_url := None; file_name := None |}))
    (NetworkFailure "Failed to fetch").

(** The toast [handleSubmit] shows for a rejected call. *)
Definition rejection_toast (error : Thrown) : string :=
  match error with
  | ThrowVal (JStr s) => s
  | _ => "Failed to execute workflow"
  end.

(** The names of the file fields of a schema, each once. *)
Definition file_keys (fields : list WebhookFormField) : list string :=
  first_seen (map name (List.filter FormModal.is_file fields)).

(** A modal with one multiple-file field holding one file. *)
Definition one_picked : FormModal.Modal :=
  FormModal.handleFileChange "doc" (Some [report_pdf]) true
    (FormModal.open [file_field "doc" "Doc" true] used_modal).

(** What the user does in the palette. *)
Inductive Key : Type :=
| ArrowUp
| ArrowDown
| Hover (idx : Z)
| Typed (q : string).

Definition press `{Engine} (k : Key) (p : Palette.Palette) : Palette.Palette :=
  match k with
  | ArrowUp => Palette.selectUp p
  | ArrowDown => Palette.selectDown p
  | Hover idx => Palette.mousemove idx p
  | Typed q => Palette.setQuery q p
  end.

(** The pointer can only hover over a listed item; the text typed is
    not empty and matches something. *)
Definition possible `{Engine} (k : Key) (p : Palette.Palette) : Prop :=
  match k with
  | Hover idx => 0 <= idx < Palette.filteredCount p
  | Typed q => q <> "" /\ 0 < Palette.filteredCount (Palette.setQuery q p)
  | _ => True
  end.

Fixpoint run `{Engine} (ks : list Key) (p : Palette.Palette) : Palette.Palette :=
  match ks with
  | [] => p
  | k :: ks' => run ks' (press k p)
  end.

Fixpoint all_possible `{Engine} (ks : list Key) (p : Palette.Palette) : Prop :=
  match ks with
  | [] => True
  | k :: ks' => possible k p /\ all_possible ks' (press k p)
  end.

(** [a] is listed before [b] without objection of [localeCompare]. *)
Definition name_le `{Engine} (a b : WebhookModel) : Prop :=
  localeCompare (model_name a) (model_name b) <= 0.

(** The event that opens the form for a workflow. *)
Definition is_select (e : Event) : bool :=
  match e with WorkflowSelect _ _ _ _ => true | _ => false end.

(** The title the menu hands over with a selected workflow. *)
Definition selection_title (config : WebhookConfig) (workflow : WebhookModel) : string :=
  or_str (cfg_form_title config) (or_str (Some (model_name workflow)) "Workflow Form").

(** A backend whose config endpoint answers with an enabled (resp.
    disabled) config that has no title of its own. *)
Definition untitled (on : bool) : WebhookConfig :=
  {| enabled := on; workflow_only := None; cfg_slash_command := None;
     cfg_form_title := None; form_description := None; form_fields := None |}.

Definition config_ok (on : bool) : Server :=
  Sample.constant_server (HttpOk (Parsed (untitled on)))
                         (NetworkFailure "Failed to fetch")
                         (NetworkFailure "Failed to fetch").

(** What the config call settles to, and what its catch handler logs,
    as a function of the backend's answer. *)
Definition config_result (o : FetchOutcome WebhookConfig)
  : Settled (option WebhookConfig) :=
  match then_json o with
  | Fulfilled c => Fulfilled (Some c)
  | Rejected err =>
      match pick_detail err with
      | Rejected t => Rejected t
      | Fulfilled e => if truthy e then Rejected (ThrowVal e) else Fulfilled None
      end
  end.

Definition config_console (o : FetchOutcome WebhookConfig) : list Event :=
  match then_json o with
  | Fulfilled _ => []
  | Rejected err =>
      match pick_detail err with
      | Rejected _ => []
      | Fulfilled _ => [ConsoleError err]
      end
  end.

(** The list the menu holds after a fetch that got this answer. *)
Definition listed (o : FetchOutcome (list WebhookModel)) : list WebhookModel :=
  match o with
  | HttpOk (Parsed ws) => ws
  | _ => []
  end.

(** ** The Markdown table of a chat message ([index.ts], lines 404-821) *)

Module Markdown.

(** An inline token of a cell; some kinds carry no [text]. *)
Record InlineToken : Type := { token_text : option string }.

Record Cell : Type := { text : string; tokens : list InlineToken }.

(** A table token: a header row and body rows. *)
Record TableToken : Type := { header : list Cell; rows : list (list Cell) }.

Definition dquote : ascii := ascii_of_nat 34.
Definition comma : ascii := ascii_of_nat 44.
Definition newline : ascii := ascii_of_nat 10.

(** The [replace] of the handler: every quotation mark of the text is
    replaced by two. *)
Fixpoint double_quotes (s : string) : string :=
  match s with
  | EmptyString => EmptyString
  | String c s' =>
      if Ascii.eqb c dquote then String c (String c (double_quotes s'))
      else String c (double_quotes s')
  end.

(** The template literal that wraps the escaped text in quotation marks. *)
Definition wrap (s : string) : string :=
  String dquote (double_quotes s +:+ String dquote "").

(** [cell.tokens.map((token) => token.text).join('')]; a missing text
    joins as the empty string. *)
Definition cellContent (cell : Cell) : string :=
  Sample.join "" (map (fun token => match token_text token with
                                    | Some t => t
                                    | None => ""
                                    end) (tokens cell)).

(** [csvData.map((row) => row.join(',')).join('\n')] *)
Definition csvContent (token : TableToken) : string :=
  let header := map (fun headerCell => wrap (text headerCell)) (header token) in
  let rows := map (fun row => map (fun cell => wrap (cellContent cell)) row)
                  (rows token) in
  let csvData := header :: rows in
  Sample.join (String newline "") (map (Sample.join (String comma "")) csvData).

(** The byte order mark U+FEFF, as the UTF-8 bytes of the file. *)
Definition bom : string :=
  String (ascii_of_nat 239) (String (ascii_of_nat 187) (String (ascii_of_nat 191) "")).

(** [exportTableToCSVHandler(token, tokenIdx)] of the message [id]:
    the name and the content of the file handed to [saveAs].  (The
    calls of [console.log] are left out.) *)
Definition exportTableToCSVHandler `{Engine} (id : string) (token : TableToken)
  (tokenIdx : Z) : string * string :=
  ("table-" +:+ id +:+ "-" +:+ String_of_number tokenIdx +:+ ".csv",
   bom +:+ csvContent token).

(** [rawRow.slice(from, to)] for [from <= to]. *)
Definition slice {A : Type} (from to : nat) (l : list A) : list A :=
  take (to - from) (drop from l).

(** [rawRow.length > 0 &&
     (!rawRow[0]?.text || rawRow[0]?.text?.trim() === '')] *)
Definition firstCellEmpty `{Engine} (rawRow : list Cell) : bool :=
  (0 <? Z.of_nat (length rawRow))
  && match head rawRow with
     | Some cell => String.eqb (text cell) "" || String.eqb (trim (text cell)) ""
     | None => true
     end.

(** The cells the template shows for a body row ([row ?? []] is
    [None] for a missing row). *)
Definition normalizedRow `{Engine} (headerCount : nat) (row : option (list Cell))
  : list Cell :=
  let rawRow := match row with Some r => r | None => [] end in
  let hasExtraCols := (Z.of_nat headerCount <? Z.of_nat (length rawRow)) in
  if firstCellEmpty rawRow && hasExtraCols
  then slice 1 (headerCount + 1) rawRow
  else if hasExtraCols then slice 0 headerCount rawRow else rawRow.

End Markdown.

(** A reader of CSV text in which every field is quoted: a field ends
    at a quotation mark that is not doubled; fields are separated by
    commas, records by line feeds. *)
Inductive CsvMode : Type := AtRecord | AfterComma | InField | AfterQuote.

Fixpoint scan_csv (mode : CsvMode) (done : list (list string)) (record : list string)
  (field : string) (s : string) : option (list (list string)) :=
  match s with
  | EmptyString =>
      match mode with
      | AtRecord => Some (done ++ [[]])
      | AfterQuote => Some (done ++ [record ++ [field]])
      | _ => None
      end
  | String c s' =>
      match mode with
      | AtRecord =>
          if Ascii.eqb c Markdown.dquote then scan_csv InField done [] "" s'
          else if Ascii.eqb c Markdown.newline then scan_csv AtRecord (done ++ [[]]) [] "" s'
          else None
      | AfterComma =>
          if Ascii.eqb c Markdown.dquote then scan_csv InField done record "" s'
          else None
      | InField =>
          if Ascii.eqb c Markdown.dquote then scan_csv AfterQuote done record field s'
          else scan_csv InField done record (field +:+ String c "") s'
      | AfterQuote =>
          if Ascii.eqb c Markdown.dquote
          then scan_csv InField done record (field +:+ String c "") s'
          else if Ascii.eqb c Markdown.comma
          then scan_csv AfterComma done (record ++ [field]) "" s'
          else if Ascii.eqb c Markdown.newline
          then scan_csv AtRecord (done ++ [record ++ [field]]) [] "" s'
          else None
      end
  end.

Definition read_csv (s : string) : option (list (list string)) :=
  scan_csv AtRecord [] [] "" s.

(** The texts a table exports: header texts, then cell contents. *)
Definition exported_texts (token : Markdown.TableToken) : list (list string) :=
  map Markdown.text (Markdown.header token)
  :: map (map Markdown.cellContent) (Markdown.rows token).

(** What is left to read after a record: nothing, or a further line. *)
Definition at_line_end (rest : string) : bool :=
  match rest with
  | EmptyString => true
  | String c _ => Ascii.eqb c Markdown.newline
  end.

(** A cell with the given text as its only token. *)
Definition plain_cell (s : string) : Markdown.Cell :=
  {| Markdown.text := s; Markdown.tokens := [{| Markdown.token_text := Some s |}] |}.

(** What the reader does at the end of a record. *)
Definition after_record (done : list (list string)) (record : list string)
  (rest : string) : option (list (list string)) :=
  match rest with
  | EmptyString => Some (done ++ [record])
  | String _ rest' => scan_csv AtRecord (done ++ [record]) [] "" rest'
  end.

(** A table whose cells hold quotation marks, commas and line feeds. *)
Definition awkward_table : Markdown.TableToken :=
  {| Markdown.header := [plain_cell "name, first"; plain_cell "note"];
     Markdown.rows :=
       [[plain_cell (String Markdown.dquote "Ann" +:+ String Markdown.dquote "");
         plain_cell ("two" +:+ String Markdown.newline "lines")];
        []] |}.

(** ** The build-and-run script ([src/unnamed/part_002]) *)

Module BuildScript.

Record Flags : Type := {
  WITH_N8N : bool;
  DEV_MODE : bool;
  BUILD_ONLY : bool;
  SLIM_BUILD : bool
}.

Definition initial : Flags :=
  {| WITH_N8N := false; DEV_MODE := false; BUILD_ONLY := false; SLIM_BUILD := false |}.

(** One turn of [for arg in "$@"; do case $arg in ... esac; done]; an
    argument that matches no pattern is passed over. *)
Definition case_arg (flags : Flags) (arg : string) : Flags :=
  if String.eqb arg "--with-n8n" then
    {| WITH_N8N := true; DEV_MODE := DEV_MODE flags;
       BUILD_ONLY := BUILD_ONLY flags; SLIM_BUILD := SLIM_BUILD flags |}
  else if String.eqb arg "--dev" then
    {| WITH_N8N := WITH_N8N flags; DEV_MODE := true;
       BUILD_ONLY := BUILD_ONLY flags; SLIM_BUILD := SLIM_BUILD flags |}
  else if String.eqb arg "--build-only" then
    {| WITH_N8N := WITH_N8N flags; DEV_MODE := DEV_MODE flags;
       BUILD_ONLY := true; SLIM_BUILD := SLIM_BUILD flags |}
  else if String.eqb arg "--slim" then
    {| WITH_N8N := WITH_N8N flags; DEV_MODE := DEV_MODE flags;
       BUILD_ONLY := BUILD_ONLY flags; SLIM_BUILD := true |}
  else flags.

Definition parse (args : list string) : Flags := fold_left case_arg args initial.

Definition COMPOSE_FILE (flags : Flags) : string :=
  if DEV_MODE flags then "docker-compose.dev.yaml"
  else if WITH_N8N flags then "docker-compose.obsidian.yaml"
  else "docker-compose.yaml".

(** [$BUILD_ARGS] is expanded unquoted, so it splits into words. *)
Definition BUILD_ARGS (flags : Flags) : list string :=
  if SLIM_BUILD flags then ["--build-arg"; "USE_SLIM=true"] else [].

(** [docker compose -f FILE build ARGS] and [docker compose -f FILE up -d]. *)
Inductive Command : Type :=
| Build (file : string) (args : list string)
| Up (file : string).

Definition file_of (c : Command) : string :=
  match c with Build f _ => f | Up f => f end.

(** The machine the script runs on: whether [docker] and
    [docker compose] are there, and whether a command succeeds. *)
Record Host : Type := {
  docker : bool;
  compose : bool;
  succeeds : Command -> bool
}.

(** What a run did: the commands it ran, whether it exited with
    status 0, and the addresses it announced. *)
Record Run : Type := {
  ran : list Command;
  exit_zero : bool;
  announced : list (string * string)
}.

Definition addresses (flags : Flags) : list (string * string) :=
  (if DEV_MODE flags
   then [("Frontend:", "http://localhost:3000"); ("Backend:", "http://localhost:8080")]
   else [("Obsidian:", "http://localhost:3000")])
  ++ (if WITH_N8N flags then [("n8n:", "http://localhost:5678")] else [])
  ++ [("Ollama:", "http://localhost:11434")].

(** The script; under [set -e] a failing command ends it. *)
Definition main (host : Host) (args : list string) : Run :=
  let flags := parse args in
  if negb (docker host) then {| ran := []; exit_zero := false; announced := [] |}
  else if negb (compose host) then {| ran := []; exit_zero := false; announced := [] |}
  else
    let build := Build (COMPOSE_FILE flags) (BUILD_ARGS flags) in
    if negb (succeeds host build)
    then {| ran := [build]; exit_zero := false; announced := [] |}
    else if BUILD_ONLY flags
    then {| ran := [build]; exit_zero := true; announced := [] |}
    else
      let up := Up (COMPOSE_FILE flags) in
      if negb (succeeds host up)
      then {| ran := [build; up]; exit_zero := false; announced := [] |}
      else {| ran := [build; up]; exit_zero := true; announced := addresses flags |}.

End BuildScript.

(** A machine on which everything works. *)
Definition good_host : BuildScript.Host :=
  {| BuildScript.docker := true; BuildScript.compose := true;
     BuildScript.succeeds := fun _ => true |}.

(** ** The form as its inputs bind it ([index.ts], lines 863-882, 908-911, 1029-1041)

    [formData] is declared [Record<string, string>], but the template
    binds each input to it with [bind:value], and Svelte stores what the
    input yields: a string for text, date, select and textarea inputs;
    for [<input type="number">] a number, or [null] once the input is
    emptied.  Here the values are the JavaScript values that are
    really there. *)
Module BoundForm.

Record Form : Type := {
  formFields : list WebhookFormField;
  formData : gmap string JsVal;
  fileData : list (string * list File);
  errors : gmap string string
}.

(** A modal whose values are all strings, as the reset block leaves it. *)
Definition of_modal (m : FormModal.Modal) : Form :=
  {| formFields := FormModal.formFields m;
     formData := JStr <$> FormModal.formData m;
     fileData := FormModal.fileData m;
     errors := FormModal.errors m |}.

(** The user edits [<input type="number" bind:value={formData[fieldName]}>]:
    the binding stores [input.value === '' ? null : +input.value].
    [None] is the emptied input. *)
Definition input_number (fieldName : string) (entered : option Z) (f : Form) : Form :=
  {| formFields := formFields f;
     formData := <[fieldName := match entered with
                               | Some n => JNum n
                               | None => JNull
                               end]> (formData f);
     fileData := fileData f;
     errors := errors f |}.

(** The user edits an input whose binding stores the text as it is. *)
Definition input_text (fieldName : string) (entered : string) (f : Form) : Form :=
  {| formFields := formFields f;
     formData := <[fieldName := JStr entered]> (formData f);
     fileData := fileData f;
     errors := errors f |}.

(** [!formData[field.name]?.trim()].  The optional chain stops at
    undefined and null only; a string is trimmed; any other value has no
    [trim], and calling it throws a TypeError: [None]. *)
Definition blank `{Engine} (value : option JsVal) : option bool :=
  match value with
  | None | Some JUndefined | Some JNull => Some true
  | Some (JStr s) => Some (String.eqb (trim s) "")
  | Some (JBool _) | Some (JNum _) | Some (JArr _) | Some (JObj _) => None
  end.

(** [!fileData[field.name] || fileData[field.name].length === 0] *)
Definition no_file (f : Form) (field : WebhookFormField) : bool :=
  match obj_get (name field) (fileData f) with
  | None => true
  | Some fs => (Z.of_nat (length fs) =? 0)
  end.

(** How a call of [validateForm] ends, with [errors] as it is then. *)
Inductive Validation : Type :=
| Returned (isValid : bool) (errs : gmap string string)
| Threw (errs : gmap string string).

(** The loop of [validateForm]; a throw leaves it at once. *)
Fixpoint validate `{Engine} (f : Form) (fields : list WebhookFormField)
  (isValid : bool) (errs : gmap string string) : Validation :=
  match fields with
  | [] => Returned isValid errs
  | field :: rest =>
      if required field then
        if FormModal.is_file field then
          if no_file f field
          then validate f rest false (<[name field := label field +:+ " is required"]> errs)
          else validate f rest isValid errs
        else
          match blank (formData f !! name field) with
          | None => Threw errs
          | Some true =>
              validate f rest false (<[name field := label field +:+ " is required"]> errs)
          | Some false => validate f rest isValid errs
          end
      else validate f rest isValid errs
  end.

(** [errors = {}; let isValid = true; for (...) ...; return isValid] *)
Definition validateForm `{Engine} (f : Form) : Validation :=
  validate f (formFields f) true ∅.

(** How [handleSubmit] begins:
    [if (!validateForm()) { return; }  loading = true; try { ... }].
    Only [Submits] reaches the call of the backend; when [validateForm]
    throws, the promise of [handleSubmit] rejects on its first line and
    nothing after it runs. *)
Inductive Start : Type :=
| Rejects (errs : gmap string string)
| Returns (errs : gmap string string)
| Submits.

Definition handleSubmit_start `{Engine} (f : Form) : Start :=
  match validateForm f with
  | Threw errs => Rejects errs
  | Returned false errs => Returns errs
  | Returned true _ => Submits
  end.

(** The requests [handleSubmit] makes: none unless it gets past its
    first line, then the one call in its [try] block. *)
Definition calls `{Engine} (f : Form) : nat :=
  match handleSubmit_start f with
  | Submits => 1
  | Rejects _ | Returns _ => 0
  end.

End BoundForm.

Definition number_field (n l : string) (req : bool) (d : option string) : WebhookFormField :=
  {| name := n; label := l; type := TNumber; required := req; placeholder := None;
     options := None; default := d; accept := None; multiple := None |}.

(** A form with one required number field, in which the user has
    entered 3. *)
Definition quantity_form : BoundForm.Form :=
  BoundForm.input_number "quantity" (Some 3)
    (BoundForm.of_modal
       (FormModal.open [number_field "quantity" "Quantity" true None] used_modal)).

(** ** The table cell as the template reads it ([index.ts], line 330)

    [row[header]] is a property read, and a read that finds no property
    of the row itself goes on to the prototype of the row.  A row comes
    out of [JSON.parse], so its prototype is [Object.prototype]. *)

(** The properties of [Object.prototype]. *)
Definition object_prototype_names : list string :=
  ["constructor"; "__defineGetter__"; "__defineSetter__"; "hasOwnProperty";
   "__lookupGetter__"; "__lookupSetter__"; "isPrototypeOf"; "propertyIsEnumerable";
   "toString"; "valueOf"; "__proto__"; "toLocaleString"].

Definition inherited (key : string) : bool :=
  existsb (String.eqb key) object_prototype_names.

Inductive Member : Type :=
| Own (v : JsVal)
| Inherited (key : string)
| Absent.

(** [row[header]] *)
Definition member (row : list (string * JsVal)) (header : string) : Member :=
  match obj_get header row with
  | Some v => Own v
  | None => if inherited header then Inherited header else Absent
  end.

(** What a cell shows: a text, or the text the engine gives for one of
    its built-in functions ([function toString() { [native code] }]). *)
Inductive CellText : Type :=
| Shown (text : string)
| NativeFunction (key : string).

(** [formatValue(row[header])].  An inherited member is a function: not
    null, not undefined, not a boolean, not of type object, so it goes
    through [String]; except [__proto__], whose getter gives the
    prototype itself, an object with no enumerable property. *)
Definition shown_cell `{Engine} (row : list (string * JsVal)) (header : string) : CellText :=
  match member row header with
  | Own v => Shown (Renderer.formatValue v)
  | Absent => Shown "-"
  | Inherited key =>
      if String.eqb key "__proto__" then Shown (JSON_stringify (JObj []))
      else NativeFunction key
  end.

(** ** Property names that an object keeps in the order of their creation

    JavaScript lists integer-like names ([0], [1], [42], ...) first, in
    ascending order, and assigning to [__proto__] creates no property;
    every other name is listed in the order in which it was created.
    An integer-like name is made of digits only, so a name that is not
    is listed where it was created. *)
Definition is_digit (c : ascii) : bool :=
  (48 <=? Z.of_nat (nat_of_ascii c)) && (Z.of_nat (nat_of_ascii c) <=? 57).

Definition all_digits (key : string) : bool :=
  negb (String.eqb key "") && forallb is_digit (list_ascii_of_string key).

Definition ordinary_name (key : string) : bool :=
  negb (all_digits key) && negb (String.eqb key "__proto__").

(** * Properties *)

(** ** The API client *)

Lemma read_body (body : JsVal) (k : string) :
  nullish body = false ->
  read (ThrowVal body) k = Fulfilled (match body with JObj o => prop o k | _ => JUndefined end).
Proof. destruct body; cbn; intros Hn; try discriminate; reflexivity. Qed.

Lemma read_nullish (body : JsVal) (k : string) :
  nullish body = true -> read (ThrowVal body) k = Rejected ThrowNullRead.
Proof. destruct body; cbn; intros Hn; try discriminate; reflexivity. Qed.

Lemma requests_app (l1 l2 : list Event) :
  requests (l1 ++ l2) = requests l1 ++ requests l2.
Proof. apply omap_app. Qed.

(** The catch handler and what follows it issue no request. *)
Lemma catch_tail_requests {A : Type} pick (dflt : A) r srv log :
  requests (catch_tail pick dflt r srv log).2 = requests log.
Proof.
  unfold catch_tail. destruct r as [a|err]; cbn; [reflexivity|].
  destruct (pick err); cbn; [|reflexivity].
  rewrite requests_app. cbn. apply app_nil_r.
Qed.

(** Every call of the client issues exactly one request. *)
Lemma getWebhookEnabledModels_requests token srv log :
  requests (getWebhookEnabledModels token srv log).2
  = requests log ++ [GetModels token].
Proof.
  unfold getWebhookEnabledModels, bind, fetch.
  rewrite catch_tail_requests, requests_app. reflexivity.
Qed.

Lemma getWebhookConfig_requests token modelId srv log :
  requests (getWebhookConfig token modelId srv log).2
  = requests log ++ [GetConfig token modelId].
Proof.
  unfold getWebhookConfig, bind, fetch.
  rewrite catch_tail_requests, requests_app. reflexivity.
Qed.

Lemma invokeWebhook_requests token modelId fd chat srv log :
  requests (invokeWebhook token modelId fd chat srv log).2
  = requests log ++ [PostInvoke token modelId fd chat].
Proof.
  unfold invokeWebhook, bind, fetch. cbn zeta.
  rewrite catch_tail_requests, requests_app. reflexivity.
Qed.

Lemma invokeWebhookWithFiles_requests token modelId fd files chat srv log :
  requests (invokeWebhookWithFiles token modelId fd files chat srv log).2
  = requests log ++ [PostInvokeWithFiles token modelId fd files (nonempty chat)].
Proof.
  unfold invokeWebhookWithFiles, bind, fetch. cbn zeta.
  rewrite catch_tail_requests, requests_app. reflexivity.
Qed.

(** C1, as stated, fails: on a 500 whose body carries a detail, the
    listing call rejects with that detail instead of returning the empty
    list. *)
Lemma getWebhookEnabledModels_500_rejects :
  (getWebhookEnabledModels "tok" models_500 []).1
    = Rejected (ThrowVal (JStr "Internal Server Error"))
  /\ (getWebhookEnabledModels "tok" models_500 []).1 <> Fulfilled [].
Proof. split; [reflexivity | discriminate]. Qed.

(** C1 (amended): a failed listing call returns the empty list when the
    failure carries no truthy [detail] -- a network failure, a
    non-success response whose body is not JSON, or one whose JSON body
    (other than null) has no truthy [detail]; when the non-success body
    does carry a truthy [detail], the call rejects with that detail. *)
Theorem getWebhookEnabledModels_on_failure (srv : Server) (log : list Event)
    (token : string) :
  let result := (getWebhookEnabledModels token srv log).1 in
  (forall m, models_reply srv log token = NetworkFailure m ->
             result = Fulfilled [])
  /\ (forall st m, models_reply srv log token = HttpFail st (Unparsable m) ->
                   result = Fulfilled [])
  /\ (forall st body, models_reply srv log token = HttpFail st (Parsed body) ->
                      nullish body = false ->
                      truthy (detail_of body) = false ->
                      result = Fulfilled [])
  /\ (forall st body, models_reply srv log token = HttpFail st (Parsed body) ->
                      truthy (detail_of body) = true ->
                      result = Rejected (ThrowVal (detail_of body))).
Proof.
  cbn zeta. unfold getWebhookEnabledModels, bind, fetch, fst.
  repeat split.
  - intros m ->. reflexivity.
  - intros st m ->. reflexivity.
  - intros st body -> Hn Hd. unfold then_json, catch_tail, pick_detail.
    rewrite read_body by assumption. fold (detail_of body).
    cbn. rewrite Hd. reflexivity.
  - intros st body -> Hd. unfold then_json, catch_tail, pick_detail.
    assert (Hn : nullish body = false) by (destruct body; try reflexivity; discriminate).
    rewrite read_body by assumption. fold (detail_of body).
    cbn. rewrite Hd. reflexivity.
Qed.

Lemma getWebhookEnabledModels_on_failure_witness :
  (getWebhookEnabledModels "tok" Sample.down []).1 = Fulfilled []
  /\ (getWebhookEnabledModels "tok" models_500 []).1
       = Rejected (ThrowVal (JStr "Internal Server Error")).
Proof.
  split.
  - apply (proj1 (getWebhookEnabledModels_on_failure Sample.down [] "tok")
             "Failed to fetch").
    reflexivity.
  - apply (proj2 (proj2 (proj2 (getWebhookEnabledModels_on_failure models_500 [] "tok")))
             500 (JObj [("detail", JStr "Internal Server Error")])).
    + reflexivity.
    + reflexivity.
Defined.

(** With a truthy [detail] in the error body, the config call rejects
    with it. *)
Lemma getWebhookConfig_rejects_with_detail srv log token modelId st body :
  config_reply srv log token modelId = HttpFail st (Parsed body) ->
  truthy (detail_of body) = true ->
  (getWebhookConfig token modelId srv log).1 = Rejected (ThrowVal (detail_of body)).
Proof.
  intros Hr Hd. unfold getWebhookConfig, bind, fetch, fst. rewrite Hr.
  unfold then_json, catch_tail, pick_detail.
  assert (Hn : nullish body = false) by (destruct body; try reflexivity; discriminate).
  rewrite read_body by assumption. fold (detail_of body).
  cbn. rewrite Hd. reflexivity.
Qed.

(** Without one, it resolves to [null]. *)
Lemma getWebhookConfig_null_without_detail srv log token modelId st body :
  config_reply srv log token modelId = HttpFail st (Parsed body) ->
  nullish body = false ->
  truthy (detail_of body) = false ->
  (getWebhookConfig token modelId srv log).1 = Fulfilled None.
Proof.
  intros Hr Hn Hd. unfold getWebhookConfig, bind, fetch, fst. rewrite Hr.
  unfold then_json, catch_tail, pick_detail.
  rewrite read_body by assumption. fold (detail_of body).
  cbn. rewrite Hd. reflexivity.
Qed.

(** C2 fails on the code: a non-success response without a [detail] --
    a 404 with body [{}], a 502 with an HTML page -- makes
    [getWebhookConfig] resolve to [null] instead of rejecting. *)
Theorem getWebhookConfig_non_success_returns_null :
  (getWebhookConfig "tok" "model" config_404 []).1 = Fulfilled None
  /\ (getWebhookConfig "tok" "model" config_502_html []).1 = Fulfilled None.
Proof. split; reflexivity. Qed.

(** The caller of the config lookup: the [null] makes [config.enabled]
    throw, which the caller's [catch] logs; no form opens. *)
Example selectWorkflow_on_null :
  (Menu.selectWorkflow "tok" report_model Menu.mounted config_404 []).2
  = [Fetched (GetConfig "tok" "report-generator");
     ConsoleError (ThrowVal (JObj []));
     ConsoleError ThrowNullRead].
Proof. reflexivity. Qed.

(** On a non-success status whose body is JSON other than null, the
    invoke call rejects with the detail, else the message, else the
    fallback. *)
Lemma invokeWebhook_rejects_in_priority_order srv log token modelId fd chat st body :
  invoke_reply srv log (PostInvoke token modelId fd chat) = HttpFail st (Parsed body) ->
  nullish body = false ->
  (invokeWebhook token modelId fd chat srv log).1
    = Rejected (ThrowVal (priority_message body))
  /\ truthy (priority_message body) = true.
Proof.
  intros Hr Hn. unfold invokeWebhook, bind, fetch, fst. cbn zeta. rewrite Hr.
  unfold then_json, catch_tail, pick_detail_message, priority_message.
  rewrite !read_body by assumption. fold (detail_of body) (message_of body).
  unfold js_or.
  destruct (truthy (detail_of body)) eqn:Hd; cbn.
  - rewrite Hd. split; reflexivity.
  - destruct (truthy (message_of body)) eqn:Hm; cbn.
    + rewrite Hm. split; reflexivity.
    + split; reflexivity.
Qed.

(** The same when the body is not JSON: the message is the parse error's. *)
Lemma invokeWebhook_rejects_unparsable srv log token modelId fd chat st m :
  invoke_reply srv log (PostInvoke token modelId fd chat) = HttpFail st (Unparsable m) ->
  (invokeWebhook token modelId fd chat srv log).1
    = Rejected (ThrowVal (js_or (JStr m) (JStr "Unknown error"))).
Proof.
  intros Hr. unfold invokeWebhook, bind, fetch, fst. cbn zeta. rewrite Hr.
  cbn. unfold js_or. cbn. destruct (String.eqb m "") eqn:Hm; cbn.
  - reflexivity.
  - rewrite Hm. reflexivity.
Qed.

(** The example of the specification: 400 with [{"detail":"bad input"}]. *)
Example invokeWebhook_400_bad_input :
  (invokeWebhook "tok" "model" ∅ None invoke_400 []).1
    = Rejected (ThrowVal (JStr "bad input")).
Proof. reflexivity. Qed.

(** C8 fails on the code at one input: a non-success response whose
    body is the JSON value [null].  Reading [err.detail] throws inside
    the catch handler, and the call rejects with that TypeError rather
    than with the fallback message. *)
Theorem invokeWebhook_null_body_type_error :
  (invokeWebhook "tok" "model" ∅ None invoke_400_null []).1
    = Rejected ThrowNullRead
  /\ (invokeWebhook "tok" "model" ∅ None invoke_400_null []).1
       <> Rejected (ThrowVal (JStr "Unknown error")).
Proof. split; [reflexivity | discriminate]. Qed.

(** ** The response renderer *)

Import Renderer.

(** Case analysis over the alternatives of a classification. *)
Ltac by_shape :=
  repeat split; intros;
  repeat match goal with
         | H : _ \/ _ |- _ => destruct H
         | H : exists _, _ |- _ => destruct H
         | H : _ /\ _ |- _ => destruct H
         end;
  try discriminate; try congruence; eauto 10.

(** C3, as stated, fails: the empty string, zero and [false] classify
    as empty, not as raw. *)
Lemma detectDataType_falsy_is_empty :
  detectDataType (JStr "") = Empty /\ detectDataType (JNum 0) = Empty
  /\ detectDataType (JBool false) = Empty
  /\ detectDataType (JStr "") <> Raw.
Proof. repeat split; try reflexivity. discriminate. Qed.

(** C3 (amended): classification is decided by the shape of the payload
    alone.  Absent, null and every other falsy value (false, 0, the
    empty string) is empty; a non-empty list is a table when its first
    element is a non-null object and a list otherwise; a non-list object
    is key-value; what remains -- a non-empty string, a non-zero number,
    [true], the empty list -- is raw. *)
Theorem detectDataType_by_shape (data : JsVal) :
  (detectDataType data = Empty <->
     data = JUndefined \/ data = JNull \/ data = JBool false
     \/ data = JNum 0 \/ data = JStr "")
  /\ (detectDataType data = Table <->
        exists x l, data = JArr (x :: l) /\ non_null_object x = true)
  /\ (detectDataType data = ListOf <->
        exists x l, data = JArr (x :: l) /\ non_null_object x = false)
  /\ (detectDataType data = KeyValue <-> exists o, data = JObj o)
  /\ (detectDataType data = Raw <->
        data = JBool true \/ data = JArr []
        \/ (exists n, data = JNum n /\ n <> 0)
        \/ (exists s, data = JStr s /\ s <> "")).
Proof.
  unfold detectDataType, first, non_null_object.
  destruct data as [| |[|]|n|s|[|x l]|o]; cbn;
    [ | | | | destruct (Z.eqb_spec n 0) as [->|Hn]
    | destruct (String.eqb_spec s "") as [->|Hs]
    | | destruct (typeof_object x && negb (is_null x)) eqn:Hx | ];
    cbn; by_shape.
Qed.

(** The examples of the specification. *)
Example detectDataType_examples :
  detectDataType (JArr [JObj [("a", JNum 1)]; JObj [("a", JNum 2)]]) = Table
  /\ detectDataType (JObj [("a", JNum 1); ("b", JNum 2)]) = KeyValue
  /\ detectDataType (JArr [JNum 1; JNum 2; JNum 3]) = ListOf
  /\ detectDataType (JStr "hello") = Raw
  /\ detectDataType JNull = Empty /\ detectDataType JUndefined = Empty.
Proof. repeat split. Qed.

(** *** Table headers *)

Lemma first_seen_In (k : string) (l : list string) :
  In k (first_seen l) <-> In k l.
Proof.
  induction l as [|a l IH]; cbn; [tauto|].
  rewrite List.filter_In, IH.
  destruct (String.eqb_spec k a) as [->|Hne]; cbn; intuition congruence.
Qed.

Lemma first_seen_NoDup (l : list string) : List.NoDup (first_seen l).
Proof.
  induction l as [|a l IH]; cbn; constructor.
  - rewrite List.filter_In. intros [_ Hn]. rewrite String.eqb_refl in Hn. discriminate.
  - apply List.NoDup_filter, IH.
Qed.

Lemma filter_ext_all {A : Type} (f g : A -> bool) (l : list A) :
  (forall x, f x = g x) -> List.filter f l = List.filter g l.
Proof. intros E. apply List.filter_ext. exact E. Qed.

Lemma filter_filter_and {A : Type} (f g : A -> bool) (l : list A) :
  List.filter f (List.filter g l) = List.filter (fun x => g x && f x) l.
Proof.
  induction l as [|a l IH]; cbn; [reflexivity|].
  destruct (g a); cbn; [destruct (f a)|]; rewrite IH; reflexivity.
Qed.

(** Adding keys to a [Set] that already holds [acc]. *)
Lemma fold_set_add (l acc : list string) :
  fold_left set_add l acc
  = acc ++ List.filter (fun k => negb (existsb (String.eqb k) acc)) (first_seen l).
Proof.
  revert acc. induction l as [|a l IH]; intros acc; cbn.
  - symmetry. apply app_nil_r.
  - rewrite IH. unfold set_add.
    rewrite filter_filter_and.
    destruct (existsb (String.eqb a) acc) eqn:Ha; cbn.
    + f_equal. apply filter_ext_all. intros x.
      destruct (String.eqb_spec x a) as [->|Hne]; cbn; [|reflexivity].
      rewrite Ha. reflexivity.
    + rewrite <- app_assoc. cbn. do 2 f_equal.
      apply filter_ext_all. intros x.
      rewrite existsb_app. cbn. rewrite orb_false_r, negb_orb.
      apply andb_comm.
Qed.

Lemma fold_rows (rows : list (list (string * JsVal))) (acc : list string) :
  fold_left (fun allKeys item => fold_left set_add (keys item) allKeys) rows acc
  = fold_left set_add (flat_map keys rows) acc.
Proof.
  revert acc. induction rows as [|r rows IH]; intros acc; cbn; [reflexivity|].
  rewrite IH, fold_left_app. reflexivity.
Qed.

Lemma getTableHeaders_first_seen (rows : list (list (string * JsVal))) :
  getTableHeaders rows = first_seen (flat_map keys rows).
Proof.
  unfold getTableHeaders. destruct rows as [|r rows]; [reflexivity|].
  cbn [length]. replace (Z.of_nat (S (length rows)) =? 0) with false by (symmetry; apply Z.eqb_neq; lia).
  rewrite fold_rows, fold_set_add. cbn [app].
  rewrite <- (List.filter_ext (fun _ => true)) by reflexivity.
  clear. induction (first_seen (flat_map keys (r :: rows))) as [|a l IH]; cbn; congruence.
Qed.

Lemma shown_cell_own `{Engine} (row : list (string * JsVal)) (header : string) (v : JsVal) :
  obj_get header row = Some v -> shown_cell row header = Shown (cell row header).
Proof. intros Hown. unfold shown_cell, member, cell, prop. rewrite Hown. reflexivity. Qed.

Lemma shown_cell_absent `{Engine} (row : list (string * JsVal)) (header : string) :
  obj_get header row = None -> inherited header = false ->
  shown_cell row header = Shown "-".
Proof. intros Hmiss Hord. unfold shown_cell, member. rewrite Hmiss, Hord. reflexivity. Qed.

Lemma shown_cell_inherited `{Engine} (row : list (string * JsVal)) (header : string) :
  obj_get header row = None -> inherited header = true -> header <> "__proto__" ->
  shown_cell row header = NativeFunction header.
Proof.
  intros Hmiss Hinh Hne. unfold shown_cell, member. rewrite Hmiss, Hinh.
  destruct (String.eqb_spec header "__proto__"); [contradiction | reflexivity].
Qed.

(** The columns of a table, and its cells under names that
    [Object.prototype] does not have: for a non-empty array of objects,
    classified as a table, the columns are the union of the keys of all
    rows in first-seen order (every key of every row, each once); a cell
    whose row lacks the column's key shows the dash when the key is not
    a name inherited from [Object.prototype], and the text of a built-in
    function when it is one (other than [__proto__]). *)
Theorem table_columns_union `{Engine} (rows : list (list (string * JsVal))) :
  rows <> [] ->
  detectDataType (JArr (map JObj rows)) = Table
  /\ getTableHeaders rows = first_seen (flat_map keys rows)
  /\ (forall header, In header (getTableHeaders rows)
                     <-> exists row, In row rows /\ In header (keys row))
  /\ List.NoDup (getTableHeaders rows)
  /\ (forall row header, In row rows -> obj_get header row = None ->
                         inherited header = false ->
                         shown_cell row header = Shown "-")
  /\ (forall row header, In row rows -> obj_get header row = None ->
                         inherited header = true -> header <> "__proto__" ->
                         shown_cell row header = NativeFunction header).
Proof.
  intros Hne. rewrite getTableHeaders_first_seen. repeat split.
  - destruct rows as [|r rows]; [congruence|]. reflexivity.
  - rewrite first_seen_In, in_flat_map. trivial.
  - rewrite first_seen_In, in_flat_map. trivial.
  - apply first_seen_NoDup.
  - intros row header _. apply shown_cell_absent.
  - intros row header _. apply shown_cell_inherited.
Qed.

(** The example of the specification: [[{"a":1},{"b":2}]] has columns
    [a] and [b]; the second row shows a dash under [a]. *)
Lemma table_columns_union_witness :
  getTableHeaders [[("a", JNum 1)]; [("b", JNum 2)]] = ["a"; "b"]
  /\ @shown_cell Sample.engine [("b", JNum 2)] "a" = Shown "-".
Proof.
  pose proof (table_columns_union (H := Sample.engine)
                [[("a", JNum 1)]; [("b", JNum 2)]]) as T.
  destruct T as (_ & Hcols & _ & _ & Hcell & _); [discriminate|].
  split.
  - rewrite Hcols. reflexivity.
  - apply (Hcell [("b", JNum 2)] "a");
      [right; left; reflexivity | reflexivity | reflexivity].
Defined.

(** C7 (code bug): the array [[{"a":1},{"toString":2}]] is shown as a
    table with the columns [a] and [toString]; the first row has no key
    [toString], but its cell under that column does not show the dash:
    [row["toString"]] finds the function every object inherits, and the
    cell shows the text of that function. *)
Theorem table_cell_under_inherited_name `{Engine} :
  let rows := [[("a", JNum 1)]; [("toString", JNum 2)]] in
  detectDataType (JArr (map JObj rows)) = Table
  /\ getTableHeaders rows = ["a"; "toString"]
  /\ ~ In "toString" (keys [("a", JNum 1)])
  /\ shown_cell [("a", JNum 1)] "toString" = NativeFunction "toString"
  /\ shown_cell [("a", JNum 1)] "toString" <> Shown "-"
  /\ shown_cell [("toString", JNum 2)] "a" = Shown "-".
Proof.
  cbn zeta. repeat split; try reflexivity; try discriminate.
  cbn. intuition discriminate.
Qed.

(** ** The form modal *)

Import FormModal.

Lemma obj_get_set_eq {V : Type} (k : string) (v : V) (o : list (string * V)) :
  obj_get k (obj_set k v o) = Some v.
Proof.
  induction o as [|[k' v'] o IH]; cbn.
  - rewrite String.eqb_refl. reflexivity.
  - destruct (String.eqb k k') eqn:E; cbn; rewrite ?String.eqb_refl, ?E; auto.
Qed.

Lemma obj_get_set_ne {V : Type} (k k' : string) (v : V) (o : list (string * V)) :
  k <> k' -> obj_get k' (obj_set k v o) = obj_get k' o.
Proof.
  intros Hne. induction o as [|[k0 v0] o IH]; cbn.
  - destruct (String.eqb_spec k' k); [congruence | reflexivity].
  - destruct (String.eqb_spec k k0) as [->|Hk]; cbn.
    + destruct (String.eqb_spec k' k0); [congruence | reflexivity].
    + destruct (String.eqb k' k0); [reflexivity | exact IH].
Qed.

(** *** The reset block *)








(** What [open] leaves does not depend on what the modal held. *)
Lemma open_forgets fields m m0 :
  formData (open fields m0) = formData (open fields m)
  /\ fileData (open fields m0) = fileData (open fields m)
  /\ errors (open fields m0) = errors (open fields m).
Proof. repeat split. Qed.





(** *** Validation *)

Section Validation.
Context `{Engine}.

Lemma check_step (m : Modal) acc f :
  check m acc f
  = if fails m f then (false, <[name f := label f +:+ " is required"]> acc.2) else acc.
Proof. unfold check, fails. destruct (required f), (unfilled m f); reflexivity. Qed.

(** An entry of the error map comes from a failing field. *)
Lemma check_sound (m : Modal) fields acc k msg :
  (fold_left (check m) fields acc).2 !! k = Some msg ->
  acc.2 !! k = Some msg
  \/ exists f, In f fields /\ name f = k /\ fails m f = true
               /\ msg = label f +:+ " is required".
Proof.
  revert acc. induction fields as [|a fields IH]; intros acc Hk; cbn in *; [auto|].
  apply IH in Hk as [Hk|(f & Hin & Hf)]; [|right; eauto].
  rewrite check_step in Hk. destruct (fails m a) eqn:Ha; [|auto].
  cbn in Hk. destruct (decide (name a = k)) as [E|E].
  - rewrite E, lookup_insert_eq in Hk. injection Hk as <-. right. exists a. auto.
  - rewrite lookup_insert_ne in Hk by assumption. auto.
Qed.

(** An entry, once made, is never removed. *)
Lemma check_keeps (m : Modal) fields acc k :
  is_Some (acc.2 !! k) -> is_Some ((fold_left (check m) fields acc).2 !! k).
Proof.
  revert acc. induction fields as [|a fields IH]; intros acc Hk; cbn; [assumption|].
  apply IH. rewrite check_step. destruct (fails m a); [|assumption].
  cbn. destruct (decide (name a = k)) as [E|E].
  - rewrite E, lookup_insert_eq. eauto.
  - rewrite lookup_insert_ne by assumption. assumption.
Qed.

(** Every failing field gets an entry: the loop does not stop at the
    first failure. *)
Lemma check_complete (m : Modal) fields acc f :
  In f fields -> fails m f = true ->
  is_Some ((fold_left (check m) fields acc).2 !! name f).
Proof.
  revert acc. induction fields as [|a fields IH]; intros acc Hin Hf; [destruct Hin|].
  cbn. destruct Hin as [->|Hin]; [|apply IH; assumption].
  apply check_keeps. rewrite check_step, Hf. cbn. rewrite lookup_insert_eq. eauto.
Qed.

(** [isValid] is false exactly when the error map has an entry. *)
Lemma check_flag (m : Modal) fields acc :
  (acc.1 = true <-> acc.2 = ∅) ->
  ((fold_left (check m) fields acc).1 = true
   <-> (fold_left (check m) fields acc).2 = ∅).
Proof.
  revert acc. induction fields as [|a fields IH]; intros acc Hacc; cbn; [assumption|].
  apply IH. rewrite check_step. destruct (fails m a); [|assumption].
  cbn. split; [discriminate|]. intros E. exfalso.
  exact (insert_non_empty (M := gmap string) _ _ _ E).
Qed.

Lemma check_all_filled (m : Modal) fields acc :
  (forall f, In f fields -> fails m f = false) ->
  fold_left (check m) fields acc = acc.
Proof.
  revert acc. induction fields as [|a fields IH]; intros acc Hall; cbn; [reflexivity|].
  rewrite check_step, (Hall a) by (left; reflexivity).
  apply IH. intros f Hin. apply Hall. right. assumption.
Qed.

Lemma validateForm_valid_iff (m : Modal) :
  (validateForm m).1 = true <-> errors (validateForm m).2 = ∅.
Proof. unfold validateForm. cbn. apply check_flag. cbn. tauto. Qed.

Lemma validateForm_valid_all_filled (m : Modal) :
  (validateForm m).1 = true <-> forall f, In f (formFields m) -> fails m f = false.
Proof.
  split.
  - intros Hv f Hin. destruct (fails m f) eqn:Hf; [|reflexivity].
    apply validateForm_valid_iff in Hv.
    destruct (check_complete m (formFields m) (true, ∅) f Hin Hf) as [msg Hmsg].
    unfold validateForm in Hv. cbn in Hv. rewrite Hv, lookup_empty in Hmsg. discriminate.
  - intros Hall. unfold validateForm. cbn. rewrite check_all_filled by assumption.
    reflexivity.
Qed.

(** *** Submission *)

(** What [handleSubmit] does after the call returned issues no request. *)
Lemma on_error_requests (m : Modal) e srv log :
  requests (on_error m e srv log).2 = requests log.
Proof.
  unfold on_error, bind, emit, ret. cbn.
  rewrite !requests_app. cbn. rewrite !app_nil_r. reflexivity.
Qed.

Lemma nonempty_idem (c : option string) : nonempty (nonempty c) = nonempty c.
Proof.
  destruct c as [c|]; cbn; [|reflexivity].
  destruct (String.eqb c "") eqn:E; cbn; rewrite ?E; reflexivity.
Qed.

Lemma handleSubmit_blocked token (m : Modal) srv log :
  (validateForm m).1 = false ->
  handleSubmit token m srv log = ((validateForm m).2, log).
Proof. intros Hv. unfold handleSubmit. cbn zeta. rewrite Hv. reflexivity. Qed.

Lemma on_settled_requests (m : Modal) r srv log :
  requests (on_settled m r srv log).2 = requests log.
Proof.
  destruct r as [[response|]|e]; cbn [on_settled]; try apply on_error_requests.
  unfold bind, emit, ret. destruct (success response); cbn;
    rewrite !requests_app; cbn; rewrite !app_nil_r; reflexivity.
Qed.

Lemma handleSubmit_requests token (m : Modal) srv log :
  (validateForm m).1 = true ->
  requests (handleSubmit token m srv log).2 = requests log ++ [submitted token m].
Proof.
  intros Hv. unfold handleSubmit. cbn zeta. rewrite Hv. cbn [negb].
  set (m1 := with_loading (validateForm m).2 true).
  assert (Hsub : submitted token m1 = submitted token m) by reflexivity.
  rewrite <- Hsub. unfold submitted, bind.
  destruct (hasFileFields m1).
  - pose proof (invokeWebhookWithFiles_requests token (modelId m1) (formData m1)
                  (allFiles m1) (nonempty (chatId m1)) srv log) as Hr.
    rewrite nonempty_idem in Hr.
    destruct (invokeWebhookWithFiles _ _ _ _ _ srv log) as [r log1].
    pose proof (on_settled_requests m1 r srv log1) as Hs.
    destruct (on_settled m1 r srv log1) as [m2 log2].
    cbn [snd] in *. unfold ret. cbn [snd]. congruence.
  - pose proof (invokeWebhook_requests token (modelId m1) (formData m1)
                  (nonempty (chatId m1)) srv log) as Hr.
    destruct (invokeWebhook _ _ _ _ srv log) as [r log1].
    pose proof (on_settled_requests m1 r srv log1) as Hs.
    destruct (on_settled m1 r srv log1) as [m2 log2].
    cbn [snd] in *. unfold ret. cbn [snd]. congruence.
Qed.

End Validation.

Lemma fails_iff `{Engine} (m : Modal) (f : WebhookFormField) :
  fails m f = true <->
  required f = true
  /\ (is_file f = false
        /\ (forall v, formData m !! name f = Some v -> trim v = "")
      \/ is_file f = true
        /\ (forall fs, obj_get (name f) (fileData m) = Some fs -> fs = [])).
Proof.
  unfold fails, unfilled. rewrite andb_true_iff.
  destruct (is_file f).
  - destruct (obj_get (name f) (fileData m)) as [fs|].
    + destruct fs as [|x fs]; cbn; split.
      * intros [? _]. split; [assumption|]. right. split; [reflexivity|]. congruence.
      * intros [? _]. auto.
      * intros [_ ?]. discriminate.
      * intros [_ [[? _]|[_ Hfs]]]; [discriminate|]. specialize (Hfs _ eq_refl). discriminate.
    + split; [|intros [? _]; auto].
      intros [? _]. split; [assumption|]. right. split; [reflexivity|]. discriminate.
  - destruct (formData m !! name f) as [v|].
    + rewrite String.eqb_eq. split.
      * intros [? Hv]. split; [assumption|]. left. split; [reflexivity|]. congruence.
      * intros [? [[_ Hv]|[? _]]]; [|discriminate]. auto.
    + split; [|intros [? _]; auto].
      intros [? _]. split; [assumption|]. left. split; [reflexivity|]. discriminate.
Qed.

Lemma NoDup_name_inj (fields : list WebhookFormField) (f g : WebhookFormField) :
  List.NoDup (map name fields) -> In f fields -> In g fields -> name g = name f -> g = f.
Proof.
  induction fields as [|a fields IH]; intros Hnd Hf Hg E; [destruct Hf|].
  cbn in Hnd. apply List.NoDup_cons_iff in Hnd as [Hfresh Hnd].
  destruct Hf as [->|Hf], Hg as [->|Hg]; auto.
  - exfalso. apply Hfresh. rewrite <- E. apply in_map. assumption.
  - exfalso. apply Hfresh. rewrite E. apply in_map. assumption.
Qed.

(** Validation of a form whose values are all strings, as [formData]
    is declared.  A field fails when it is
    required and either is not a file field and its value, trimmed, is
    empty, or is a file field and its file list is empty.  Every failing
    field has an entry "<label> is required" under its name (with its own
    label when names are unique), and only failing fields have one; the
    form is invalid exactly when the error map is non-empty; an invalid
    form issues no network call, and a form whose required fields are
    all filled issues exactly one. *)
Theorem validateForm_complete_and_blocking `{Engine}
    (m : Modal) (token : string) (srv : Server) (log : list Event) :
  let v := validateForm m in
  let log' := (handleSubmit token m srv log).2 in
  (forall f, fails m f = true <->
     required f = true
     /\ (is_file f = false
           /\ (forall s, formData m !! name f = Some s -> trim s = "")
         \/ is_file f = true
           /\ (forall fs, obj_get (name f) (fileData m) = Some fs -> fs = [])))
  /\ (forall f, In f (formFields m) -> fails m f = true ->
        exists g, In g (formFields m) /\ name g = name f /\ fails m g = true
                  /\ errors v.2 !! name f = Some (label g +:+ " is required"))
  /\ (List.NoDup (map name (formFields m)) ->
      forall f, In f (formFields m) -> fails m f = true ->
        errors v.2 !! name f = Some (label f +:+ " is required"))
  /\ (forall k msg, errors v.2 !! k = Some msg ->
        exists f, In f (formFields m) /\ name f = k /\ fails m f = true
                  /\ msg = label f +:+ " is required")
  /\ (v.1 = false <-> errors v.2 <> ∅)
  /\ (errors v.2 <> ∅ -> log' = log)
  /\ (errors v.2 <> ∅ <-> network_calls log' = network_calls log)
  /\ ((forall f, In f (formFields m) -> required f = true -> unfilled m f = false) ->
      network_calls log' = S (network_calls log)).
Proof.
  cbn zeta.
  assert (Hentry : forall f, In f (formFields m) -> fails m f = true ->
            exists g, In g (formFields m) /\ name g = name f /\ fails m g = true
              /\ errors (validateForm m).2 !! name f = Some (label g +:+ " is required")).
  { intros f Hin Hf.
    destruct (check_complete m (formFields m) (true, ∅) f Hin Hf) as [msg Hmsg].
    destruct (check_sound m _ _ _ _ Hmsg) as [Hk|(g & Hg & Hname & Hfail & ->)].
    - cbn in Hk. rewrite lookup_empty in Hk. discriminate.
    - exists g. auto. }
  assert (Hflag : (validateForm m).1 = false <-> errors (validateForm m).2 <> ∅).
  { rewrite <- validateForm_valid_iff. destruct (validateForm m).1; intuition congruence. }
  split; [intros f; apply fails_iff|].
  split; [exact Hentry|].
  split.
  { intros Hnd f Hin Hf. destruct (Hentry f Hin Hf) as (g & Hg & Hname & _ & Hmsg).
    rewrite (NoDup_name_inj _ f g Hnd Hin Hg Hname) in Hmsg. exact Hmsg. }
  split.
  { intros k msg Hmsg. unfold validateForm in Hmsg. cbn in Hmsg.
    destruct (check_sound m _ _ _ _ Hmsg) as [Hk|Hf]; [|exact Hf].
    cbn in Hk. rewrite lookup_empty in Hk. discriminate. }
  split; [exact Hflag|].
  split.
  { intros He. apply Hflag in He. rewrite handleSubmit_blocked by assumption. reflexivity. }
  split.
  { split.
    - intros He. apply Hflag in He. rewrite handleSubmit_blocked by assumption. reflexivity.
    - intros Hn. apply Hflag. destruct (validateForm m).1 eqn:Hv; [|reflexivity].
      unfold network_calls in Hn. rewrite handleSubmit_requests in Hn by assumption.
      rewrite length_app in Hn. cbn in Hn. lia. }
  intros Hall.
  assert (Hv : (validateForm m).1 = true).
  { apply validateForm_valid_all_filled. intros f Hin. unfold fails.
    destruct (required f) eqn:Hr; [|reflexivity]. cbn. apply Hall; assumption. }
  unfold network_calls. rewrite handleSubmit_requests by assumption.
  rewrite length_app. cbn. lia.
Qed.

(** The scenario of the specification: with [x] left empty the
    submission is blocked with "X is required"; with [x = "5"] one call
    is made. *)
Lemma validateForm_complete_and_blocking_witness :
  errors (@validateForm Sample.engine (scenario "  ")).2 !! "x" = Some "X is required"
  /\ (@handleSubmit Sample.engine "tok" (scenario "  ") invoke_ok []).2 = []
  /\ network_calls (@handleSubmit Sample.engine "tok" (scenario "5") invoke_ok []).2 = 1%nat.
Proof.
  pose proof (validateForm_complete_and_blocking (H := Sample.engine)
                (scenario "  ") "tok" invoke_ok []) as T1.
  pose proof (validateForm_complete_and_blocking (H := Sample.engine)
                (scenario "5") "tok" invoke_ok []) as T2.
  cbn zeta in T1, T2.
  destruct T1 as (_ & _ & Hown & _ & _ & Hblocked & _ & _).
  destruct T2 as (_ & _ & _ & _ & _ & _ & _ & Hone).
  split; [|split].
  - apply (Hown ltac:(repeat constructor; cbn; intuition discriminate)
                (text_field "x" "X" true None)); [left; reflexivity | reflexivity].
  - apply Hblocked. vm_compute. discriminate.
  - apply Hone. intros f [<-|[]] _. reflexivity.
Defined.

(** On a form whose values are all strings [validateForm] never throws,
    and returns what the validation over strings returns. *)
Lemma validate_of_modal `{Engine} (m : Modal) (fields : list WebhookFormField)
    (isValid : bool) (errs : gmap string string) :
  BoundForm.validate (BoundForm.of_modal m) fields isValid errs
  = BoundForm.Returned (fold_left (check m) fields (isValid, errs)).1
                       (fold_left (check m) fields (isValid, errs)).2.
Proof.
  revert isValid errs. induction fields as [|field rest IH]; intros isValid errs;
    [reflexivity|].
  cbn [BoundForm.validate fold_left]. unfold check at 2 4, unfilled, BoundForm.no_file.
  cbn [BoundForm.of_modal BoundForm.formData BoundForm.fileData].
  rewrite lookup_fmap.
  destruct (required field); [|apply IH].
  destruct (is_file field).
  - destruct (obj_get (name field) (fileData m)) as [fs|];
      [destruct (Z.of_nat (length fs) =? 0)|]; apply IH.
  - destruct (formData m !! name field) as [s|]; cbn [fmap option_fmap option_map BoundForm.blank];
      [destruct (String.eqb (trim s) "")|]; apply IH.
Qed.

Lemma validateForm_of_modal `{Engine} (m : Modal) :
  BoundForm.validateForm (BoundForm.of_modal m)
  = BoundForm.Returned (validateForm m).1 (errors (validateForm m).2).
Proof. unfold BoundForm.validateForm. cbn [BoundForm.of_modal BoundForm.formFields]. apply validate_of_modal. Qed.

(** A required field that is not a file field and holds a number makes
    [validateForm] throw, whatever the other fields hold. *)
Lemma validate_throws_on_number `{Engine} (f : BoundForm.Form)
    (fields : list WebhookFormField) (field : WebhookFormField) (n : Z)
    (isValid : bool) (errs : gmap string string) :
  In field fields -> required field = true -> is_file field = false ->
  BoundForm.formData f !! name field = Some (JNum n) ->
  exists errs', BoundForm.validate f fields isValid errs = BoundForm.Threw errs'.
Proof.
  intros Hin Hreq Hfile Hnum. revert isValid errs.
  induction fields as [|g rest IH]; intros isValid errs; [destruct Hin|].
  cbn [BoundForm.validate].
  destruct Hin as [->|Hin].
  - rewrite Hreq, Hfile, Hnum. cbn. eauto.
  - specialize (IH Hin).
    destruct (required g); [|apply IH].
    destruct (is_file g).
    + destruct (BoundForm.no_file f g); apply IH.
    + destruct (BoundForm.blank (BoundForm.formData f !! name g)) as [[|]|]; eauto.
Qed.

(** C5 (code bug): a form with the one required number field
    [quantity], in which the user has entered 3.  The field is filled,
    yet [validateForm] does not return: [formData.quantity] is the
    number 3, which has no [trim], and the call throws.  [handleSubmit]
    ends there, so no request is made, and the error map is empty: the
    submission is blocked although no field fails and there is no error
    entry. *)
Theorem validateForm_throws_on_number `{Engine} :
  BoundForm.formFields quantity_form = [number_field "quantity" "Quantity" true None]
  /\ BoundForm.formData quantity_form !! "quantity" = Some (JNum 3)
  /\ BoundForm.validateForm quantity_form = BoundForm.Threw ∅
  /\ BoundForm.handleSubmit_start quantity_form = BoundForm.Rejects ∅
  /\ BoundForm.calls quantity_form = 0%nat.
Proof.
  assert (Hnum : BoundForm.formData quantity_form !! "quantity" = Some (JNum 3)).
  { unfold quantity_form, BoundForm.input_number. cbn [BoundForm.formData].
    apply lookup_insert_eq. }
  assert (Hthrow : BoundForm.validateForm quantity_form = BoundForm.Threw ∅).
  { unfold BoundForm.validateForm.
    change (BoundForm.formFields quantity_form)
      with [number_field "quantity" "Quantity" true None].
    cbn [BoundForm.validate number_field required type is_file name].
    change (FormModal.is_file (number_field "quantity" "Quantity" true None)) with false.
    cbn iota. rewrite Hnum. reflexivity. }
  split; [reflexivity|]. split; [exact Hnum|]. split; [exact Hthrow|].
  unfold BoundForm.calls, BoundForm.handleSubmit_start. rewrite Hthrow. split; reflexivity.
Qed.


(** *** The submission path *)





(** Picking files replaces the list of a single-file field and extends
    that of a multiple one; other fields keep theirs. *)
Lemma handleFileChange_single (k : string) (fs : list File) (m : Modal) :
  obj_get k (fileData (handleFileChange k (Some fs) false m)) = Some fs.
Proof. apply obj_get_set_eq. Qed.

Lemma handleFileChange_multiple (k : string) (old fs : list File) (m : Modal) :
  obj_get k (fileData m) = Some old ->
  obj_get k (fileData (handleFileChange k (Some fs) true m)) = Some (old ++ fs).
Proof. intros Hk. cbn. rewrite Hk. apply obj_get_set_eq. Qed.

Lemma handleFileChange_other (k k' : string) files multiple (m : Modal) :
  k <> k' ->
  obj_get k' (fileData (handleFileChange k files multiple m)) = obj_get k' (fileData m).
Proof.
  intros Hne. destruct files as [fs|]; [|reflexivity].
  destruct multiple; cbn; apply obj_get_set_ne; assumption.
Qed.

(** The files go out in the order of the fields, not of the picking. *)
Example allFiles_in_field_order : allFiles two_uploads = [notes_txt; report_pdf].
Proof. reflexivity. Qed.

(** ** The slash-command palette *)

Lemma insert_sorted_length {A : Type} (cmp : A -> A -> Z) (a : A) (l : list A) :
  length (Palette.insert_sorted cmp a l) = S (length l).
Proof.
  induction l as [|b l IH]; cbn; [reflexivity|].
  destruct (cmp a b >? 0); cbn; [rewrite IH|]; reflexivity.
Qed.

(** Sorting keeps the number of items: [filteredCount] is the number of
    matching webhooks. *)
Lemma sort_length {A : Type} (cmp : A -> A -> Z) (l : list A) :
  length (Palette.sort cmp l) = length l.
Proof.
  unfold Palette.sort. induction l as [|a l IH]; cbn [fold_right]; [reflexivity|].
  rewrite insert_sorted_length, IH. reflexivity.
Qed.

Lemma filteredCount_matches `{Engine} (p : Palette.Palette) :
  Palette.filteredCount p
  = Z.of_nat (length (List.filter (Palette.matches (Palette.query p)) (Palette.webhooks p))).
Proof. unfold Palette.filteredCount, Palette.filteredItems. rewrite sort_length. reflexivity. Qed.

(** C9, as stated, fails twice: a change of the filter text to the
    empty string leaves the cursor where it was, and with an empty
    filtered list the down action moves the cursor to -1. *)
Lemma cursor_not_reset_on_empty_query :
  Palette.query (Palette.setQuery "" palette_at_second) = ""
  /\ Palette.selectedIdx (Palette.setQuery "" palette_at_second) = 1
  /\ Palette.selectedIdx (Palette.setQuery "" palette_at_second) <> 0
  /\ @Palette.filteredCount Sample.engine (Palette.mount "zzz" [report_model]) = 0
  /\ Palette.selectedIdx (@Palette.selectDown Sample.engine (Palette.mount "zzz" [report_model])) = -1.
Proof. repeat split. discriminate. Qed.

(** C9 (amended): when the filtered list is non-empty and the cursor is
    within [0, filteredCount-1], the up and down actions keep it there,
    moving it by one except at the ends, where it stays; the cursor is
    reset to 0 whenever the filter text changes to a non-empty string,
    and keeps its value when the text changes to the empty string. *)
Theorem cursor_clamped_and_reset `{Engine} (p : Palette.Palette) :
  (in_range p ->
     in_range (Palette.selectUp p) /\ in_range (Palette.selectDown p)
     /\ Palette.selectedIdx (Palette.selectUp p)
        = (if Palette.selectedIdx p =? 0 then 0 else Palette.selectedIdx p - 1)
     /\ Palette.selectedIdx (Palette.selectDown p)
        = (if Palette.selectedIdx p =? Palette.filteredCount p - 1
           then Palette.selectedIdx p else Palette.selectedIdx p + 1))
  /\ (forall q, q <> Palette.query p -> q <> "" ->
                Palette.query (Palette.setQuery q p) = q
                /\ Palette.selectedIdx (Palette.setQuery q p) = 0)
  /\ (Palette.query p <> "" ->
      Palette.query (Palette.setQuery "" p) = ""
      /\ Palette.selectedIdx (Palette.setQuery "" p) = Palette.selectedIdx p).
Proof.
  split; [|split].
  - unfold in_range, Palette.selectUp, Palette.selectDown.
    change (Palette.filteredCount (Palette.with_idx p ?i)) with (Palette.filteredCount p).
    cbn [Palette.selectedIdx Palette.with_idx]. intros Hr.
    destruct (Z.eqb_spec (Palette.selectedIdx p) 0),
             (Z.eqb_spec (Palette.selectedIdx p) (Palette.filteredCount p - 1)); lia.
  - intros q Hq Hne. unfold Palette.setQuery.
    destruct (String.eqb_spec q (Palette.query p)); [contradiction|].
    destruct (String.eqb_spec q ""); [contradiction|]. split; reflexivity.
  - intros Hq. unfold Palette.setQuery.
    destruct (String.eqb_spec "" (Palette.query p)); [congruence|]. split; reflexivity.
Qed.

Lemma cursor_clamped_and_reset_witness :
  Palette.selectedIdx (Palette.selectUp palette_at_second) = 0
  /\ Palette.selectedIdx (@Palette.selectDown Sample.engine palette_at_second) = 1
  /\ Palette.selectedIdx (Palette.setQuery "rep" palette_at_second) = 0
  /\ Palette.selectedIdx (Palette.setQuery "" palette_at_second) = 1.
Proof.
  destruct (cursor_clamped_and_reset (H := Sample.engine) palette_at_second)
    as (Hmove & Hreset & Hkeep).
  destruct Hmove as (_ & _ & Hup & Hdown); [vm_compute; split; discriminate|].
  split; [exact Hup|]. split; [exact Hdown|]. split.
  - apply (Hreset "rep"); discriminate.
  - apply Hkeep. discriminate.
Defined.

(** ** The workflow menu *)

Lemma models_calls_snoc (log : list Request) (token : string) :
  length (List.filter is_models_call (log ++ [GetModels token]))
  = S (length (List.filter is_models_call log)).
Proof. rewrite List.filter_app, length_app. cbn. lia. Qed.


(** With nothing cached, it calls the listing endpoint once. *)
Lemma loadWorkflows_fetches token (m : Menu.Menu) srv log :
  Menu.workflows m = [] ->
  requests (Menu.loadWorkflows token m srv log).2 = requests log ++ [GetModels token].
Proof.
  intros Hw. unfold Menu.loadWorkflows. rewrite Hw.
  change (0 <? Z.of_nat (length (@nil WebhookModel))) with false. cbv iota.
  unfold bind at 1.
  pose proof (getWebhookEnabledModels_requests token srv log) as Hr.
  destruct (getWebhookEnabledModels token srv log) as [r log1]. cbn [snd] in Hr.
  destruct r as [ws|e].
  - exact Hr.
  - unfold bind, emit, ret. cbn [snd]. rewrite requests_app, Hr. cbn. apply app_nil_r.
Qed.






(** * Further properties of the code *)

(** ** The API client, continued *)

Lemma pick_detail_message_truthy (err : Thrown) (e : JsVal) :
  pick_detail_message err = Fulfilled e -> truthy e = true.
Proof.
  unfold pick_detail_message.
  destruct (read err "detail") as [d|t]; [|discriminate].
  destruct (truthy d) eqn:Hd; [intros [= <-]; exact Hd|].
  destruct (read err "message") as [m|t]; [|discriminate].
  intros [= <-]. unfold js_or. destruct (truthy m) eqn:Hm; [exact Hm | reflexivity].
Qed.

Lemma catch_tail_invoke (r : Settled (option WebhookResponse)) srv log :
  catch_tail pick_detail_message None r srv log
  = match r with
    | Fulfilled a => (Fulfilled a, log)
    | Rejected err =>
        match pick_detail_message err with
        | Rejected t => (Rejected t, log)
        | Fulfilled e => (Rejected (ThrowVal e), log ++ [ConsoleError err])
        end
    end.
Proof.
  destruct r as [a|err]; cbn; [reflexivity|].
  destruct (pick_detail_message err) as [e|t] eqn:Hp; [|reflexivity].
  cbn. rewrite (pick_detail_message_truthy _ _ Hp). reflexivity.
Qed.

(** The two invoke calls, computed from the backend's answer. *)
Lemma invokeWebhook_eq token modelId fd chat srv log :
  let req := PostInvoke token modelId fd chat in
  invokeWebhook token modelId fd chat srv log
  = (invoke_result (invoke_reply srv log req),
     log ++ Fetched req :: invoke_console (invoke_reply srv log req)).
Proof.
  cbn zeta. unfold invokeWebhook, bind, fetch, invoke_result, invoke_console.
  cbn zeta. rewrite catch_tail_invoke.
  destruct (invoke_reply srv log _) as [m|[a|m]|st [v|m]]; cbn [then_json];
    try reflexivity;
    destruct (pick_detail_message _); try reflexivity;
    rewrite <- app_assoc; reflexivity.
Qed.

Lemma invokeWebhookWithFiles_eq token modelId fd files chat srv log :
  let req := PostInvokeWithFiles token modelId fd files (nonempty chat) in
  invokeWebhookWithFiles token modelId fd files chat srv log
  = (invoke_result (invoke_reply srv log req),
     log ++ Fetched req :: invoke_console (invoke_reply srv log req)).
Proof.
  cbn zeta. unfold invokeWebhookWithFiles, bind, fetch, invoke_result, invoke_console.
  cbn zeta. rewrite catch_tail_invoke.
  destruct (invoke_reply srv log _) as [m|[a|m]|st [v|m]]; cbn [then_json];
    try reflexivity;
    destruct (pick_detail_message _); try reflexivity;
    rewrite <- app_assoc; reflexivity.
Qed.

Lemma invoke_result_some (o : FetchOutcome WebhookResponse) (r : WebhookResponse) :
  invoke_result o = Fulfilled (Some r) <-> o = HttpOk (Parsed r).
Proof.
  unfold invoke_result. split.
  - destruct o as [m|[a|m]|st [v|m]]; cbn;
      try discriminate; try (destruct (pick_detail_message _); discriminate).
    intros [= ->]. reflexivity.
  - intros ->. reflexivity.
Qed.

Lemma invoke_result_failure (o : FetchOutcome WebhookResponse) :
  (forall m, o = NetworkFailure m ->
             invoke_result o = Rejected (ThrowVal (message_or_unknown m)))
  /\ (forall m, o = HttpOk (Unparsable m) ->
                invoke_result o = Rejected (ThrowVal (message_or_unknown m)))
  /\ (forall st m, o = HttpFail st (Unparsable m) ->
                   invoke_result o = Rejected (ThrowVal (message_or_unknown m)))
  /\ (forall st body, o = HttpFail st (Parsed body) -> nullish body = false ->
                      invoke_result o = Rejected (ThrowVal (priority_message body)))
  /\ (forall st body, o = HttpFail st (Parsed body) -> nullish body = true ->
                      invoke_result o = Rejected ThrowNullRead).
Proof.
  assert (Hmsg : forall m, match pick_detail_message (ThrowErr m) with
                           | Fulfilled e => Rejected (ThrowVal e)
                           | Rejected t => Rejected t
                           end
                           = @Rejected (option WebhookResponse)
                               (ThrowVal (message_or_unknown m))).
  { intros m. unfold pick_detail_message, message_or_unknown, js_or. cbn.
    destruct (String.eqb m ""); reflexivity. }
  unfold invoke_result. repeat split.
  - intros m ->. apply Hmsg.
  - intros m ->. apply Hmsg.
  - intros st m ->. apply Hmsg.
  - intros st body -> Hn. cbn [then_json]. unfold pick_detail_message, priority_message.
    rewrite !read_body by assumption. fold (detail_of body) (message_of body).
    unfold js_or. destruct (truthy (detail_of body)); reflexivity.
  - intros st body -> Hn. cbn [then_json]. unfold pick_detail_message.
    rewrite read_nullish by assumption. reflexivity.
Qed.

(** X2: how the multipart call fails.  A network failure or a body
    that is not JSON rejects with the exception's message, or with
    'Unknown error' when that message is empty; a non-success status
    with a JSON body other than null rejects with its detail, else its
    message, else 'Unknown error'. *)
Theorem invokeWebhookWithFiles_failure
    (token modelId : string) (fd : gmap string string) (files : list File)
    (chat : option string) (srv : Server) (log : list Event) :
  let reply := invoke_reply srv log
                 (PostInvokeWithFiles token modelId fd files (nonempty chat)) in
  let result := (invokeWebhookWithFiles token modelId fd files chat srv log).1 in
  (forall m, reply = NetworkFailure m ->
             result = Rejected (ThrowVal (message_or_unknown m)))
  /\ (forall m, reply = HttpOk (Unparsable m) ->
                result = Rejected (ThrowVal (message_or_unknown m)))
  /\ (forall st m, reply = HttpFail st (Unparsable m) ->
                   result = Rejected (ThrowVal (message_or_unknown m)))
  /\ (forall st body, reply = HttpFail st (Parsed body) -> nullish body = false ->
                      result = Rejected (ThrowVal (priority_message body))).
Proof.
  cbn zeta. rewrite invokeWebhookWithFiles_eq. cbn [fst].
  destruct (invoke_result_failure
              (invoke_reply srv log
                 (PostInvokeWithFiles token modelId fd files (nonempty chat))))
    as (H1 & H2 & H3 & H4 & _).
  auto.
Qed.

Lemma invokeWebhookWithFiles_failure_witness :
  (invokeWebhookWithFiles "tok" "model" ∅ [report_pdf] None Sample.down []).1
    = Rejected (ThrowVal (JStr "Failed to fetch"))
  /\ (invokeWebhookWithFiles "tok" "model" ∅ [report_pdf] None invoke_400 []).1
     = Rejected (ThrowVal (JStr "bad input")).
Proof.
  split.
  - apply (proj1 (invokeWebhookWithFiles_failure "tok" "model" ∅ [report_pdf] None
                    Sample.down []) "Failed to fetch").
    reflexivity.
  - apply (proj2 (proj2 (proj2 (invokeWebhookWithFiles_failure "tok" "model" ∅
                                  [report_pdf] None invoke_400 [])))
             400 (JObj [("detail", JStr "bad input")])); reflexivity.
Defined.

(** X3: how the JSON call fails.  A network failure or a body that is
    not JSON -- also under a success status -- rejects with the
    exception's message, or with 'Unknown error' when that message is
    empty; a non-success status with a JSON body other than null rejects
    with its detail, else its message, else 'Unknown error'. *)
Theorem invokeWebhook_failure
    (token modelId : string) (fd : gmap string string)
    (chat : option string) (srv : Server) (log : list Event) :
  let reply := invoke_reply srv log (PostInvoke token modelId fd chat) in
  let result := (invokeWebhook token modelId fd chat srv log).1 in
  (forall m, reply = NetworkFailure m ->
             result = Rejected (ThrowVal (message_or_unknown m)))
  /\ (forall m, reply = HttpOk (Unparsable m) ->
                result = Rejected (ThrowVal (message_or_unknown m)))
  /\ (forall st m, reply = HttpFail st (Unparsable m) ->
                   result = Rejected (ThrowVal (message_or_unknown m)))
  /\ (forall st body, reply = HttpFail st (Parsed body) -> nullish body = false ->
                      result = Rejected (ThrowVal (priority_message body))).
Proof.
  cbn zeta. rewrite invokeWebhook_eq. cbn [fst].
  destruct (invoke_result_failure
              (invoke_reply srv log (PostInvoke token modelId fd chat)))
    as (H1 & H2 & H3 & H4 & _).
  auto.
Qed.

Lemma invokeWebhook_failure_witness :
  (invokeWebhook "tok" "model" ∅ None Sample.down []).1
    = Rejected (ThrowVal (JStr "Failed to fetch"))
  /\ (invokeWebhook "tok" "model" ∅ None invoke_400 []).1
     = Rejected (ThrowVal (JStr "bad input")).
Proof.
  split.
  - apply (proj1 (invokeWebhook_failure "tok" "model" ∅ None Sample.down [])
             "Failed to fetch").
    reflexivity.
  - apply (proj2 (proj2 (proj2 (invokeWebhook_failure "tok" "model" ∅ None
                                  invoke_400 [])))
             400 (JObj [("detail", JStr "bad input")])); reflexivity.
Defined.

(** The catch handler appends at most one console error. *)
Lemma catch_tail_log {A : Type} pick (dflt : A) r srv log :
  exists tail, (catch_tail pick dflt r srv log).2 = log ++ tail /\ console_tail tail.
Proof.
  unfold catch_tail, console_tail. destruct r as [a|err]; cbn.
  - exists []. rewrite app_nil_r. auto.
  - destruct (pick err); cbn.
    + exists [ConsoleError err]. eauto.
    + exists []. rewrite app_nil_r. auto.
Qed.

(** X4: each of the four calls sends exactly one request and may log
    one console error after it; it leaves the earlier history of the
    session untouched and records nothing else. *)
Theorem client_calls_log
    (token modelId : string) (fd : gmap string string) (files : list File)
    (chat : option string) (srv : Server) (log : list Event) :
  (exists tail, (getWebhookConfig token modelId srv log).2
                = log ++ Fetched (GetConfig token modelId) :: tail
                /\ console_tail tail)
  /\ (exists tail, (invokeWebhook token modelId fd chat srv log).2
                   = log ++ Fetched (PostInvoke token modelId fd chat) :: tail
                   /\ console_tail tail)
  /\ (exists tail, (invokeWebhookWithFiles token modelId fd files chat srv log).2
                   = log ++ Fetched (PostInvokeWithFiles token modelId fd files
                                       (nonempty chat)) :: tail
                   /\ console_tail tail)
  /\ (exists tail, (getWebhookEnabledModels token srv log).2
                   = log ++ Fetched (GetModels token) :: tail
                   /\ console_tail tail).
Proof.
  unfold getWebhookConfig, invokeWebhook, invokeWebhookWithFiles,
    getWebhookEnabledModels, bind, fetch. cbn zeta.
  repeat split.
  all: match goal with
       | |- exists tail, (catch_tail ?p ?d ?r ?s ?l).2 = _ /\ _ =>
           destruct (catch_tail_log p d r s l) as (tail & -> & Ht);
           exists tail; rewrite <- app_assoc; auto
       end.
Qed.

(** ** The form modal, continued *)

(** A valid submission, computed from the backend's answer. *)
Lemma handleSubmit_valid_eq `{Engine} token (m : Modal) srv log :
  (validateForm m).1 = true ->
  handleSubmit token m srv log
  = (let m1 := with_loading (validateForm m).2 true in
     let o := invoke_reply srv log (submitted token m) in
     let out := on_settled m1 (invoke_result o) srv
                  (log ++ Fetched (submitted token m) :: invoke_console o) in
     (with_loading out.1 false, out.2)).
Proof.
  intros Hv. unfold handleSubmit. cbn zeta. rewrite Hv. cbn [negb].
  set (m1 := with_loading (validateForm m).2 true).
  assert (Hsub : submitted token m1 = submitted token m) by reflexivity.
  rewrite <- Hsub. unfold submitted, bind, ret.
  destruct (hasFileFields m1).
  - rewrite invokeWebhookWithFiles_eq. cbn zeta. rewrite nonempty_idem.
    destruct (on_settled _ _ _ _). reflexivity.
  - rewrite invokeWebhook_eq. cbn zeta.
    destruct (on_settled _ _ _ _). reflexivity.
Qed.

(** After the call, the modal is as it was or closed. *)
Lemma on_settled_state (m : Modal) r srv log :
  (on_settled m r srv log).1 = m \/ (on_settled m r srv log).1 = with_show m false.
Proof.
  destruct r as [[response|]|e]; cbn; auto.
  destruct (success response); cbn; auto.
Qed.

(** X5: whatever happens, [handleSubmit] leaves what the user entered
    (values, files), the schema, the model and the chat untouched, and
    returns with [loading] false. *)
Theorem handleSubmit_keeps_input `{Engine}
    (token : string) (m : Modal) (srv : Server) (log : list Event) :
  (validateForm m).1 = true \/ loading m = false ->
  let m' := (handleSubmit token m srv log).1 in
  formData m' = formData m /\ fileData m' = fileData m
  /\ formFields m' = formFields m /\ modelId m' = modelId m
  /\ chatId m' = chatId m /\ loading m' = false.
Proof.
  intros Hl. cbn zeta. destruct (validateForm m).1 eqn:Hv.
  - rewrite handleSubmit_valid_eq by assumption. cbn zeta. cbn [fst].
    destruct (on_settled_state (with_loading (validateForm m).2 true)
                (invoke_result (invoke_reply srv log (submitted token m))) srv
                (log ++ Fetched (submitted token m)
                   :: invoke_console (invoke_reply srv log (submitted token m))))
      as [-> | ->]; repeat split.
  - rewrite handleSubmit_blocked by assumption. cbn.
    destruct Hl as [Hl|Hl]; [discriminate|]. repeat split. exact Hl.
Qed.

Lemma handleSubmit_keeps_input_witness :
  formData (@handleSubmit Sample.engine "tok" (scenario "5") invoke_400 []).1
    = {[ "x" := "5" ]}
  /\ loading (@handleSubmit Sample.engine "tok" (scenario "5") invoke_400 []).1 = false.
Proof.
  destruct (@handleSubmit_keeps_input Sample.engine "tok" (scenario "5") invoke_400 [])
    as (Hd & _ & _ & _ & _ & Hl); [left; reflexivity|].
  split; [exact Hd | exact Hl].
Defined.

(** X6: the modal closes only on success: if it is hidden after
    [handleSubmit], it was hidden before, or the form was valid and the
    backend answered with a response whose [success] is true. *)
Theorem handleSubmit_closes_only_on_success `{Engine}
    (token : string) (m : Modal) (srv : Server) (log : list Event) :
  show (handleSubmit token m srv log).1 = false ->
  show m = false
  \/ ((validateForm m).1 = true
      /\ exists r, invoke_reply srv log (submitted token m) = HttpOk (Parsed r)
                   /\ success r = true).
Proof.
  destruct (validateForm m).1 eqn:Hv.
  - rewrite handleSubmit_valid_eq by assumption. cbn zeta. cbn [fst].
    destruct (invoke_reply srv log (submitted token m)) as [msg|[r|msg]|st [v|msg]] eqn:Ho;
      unfold invoke_result; cbn [then_json].
    2: { cbn [on_settled]. destruct (success r) eqn:Hs; cbn; [intros _; right; eauto | auto]. }
    all: destruct (pick_detail_message _); cbn; auto.
  - rewrite handleSubmit_blocked by assumption. cbn. auto.
Qed.

Lemma handleSubmit_closes_only_on_success_witness :
  show (scenario "5") = false
  \/ ((@validateForm Sample.engine (scenario "5")).1 = true
      /\ exists r, invoke_reply invoke_ok [] (submitted "tok" (scenario "5"))
                   = HttpOk (Parsed r) /\ success r = true).
Proof.
  apply (@handleSubmit_closes_only_on_success Sample.engine "tok" (scenario "5")
           invoke_ok []).
  reflexivity.
Defined.

(** X7: a valid submission the backend answers.  With [success] true
    the modal closes after the success event and a success toast showing
    the response's message (or a fallback when it has none); with
    [success] false it stays as it was and an error toast shows the
    message (or a fallback). *)
Theorem handleSubmit_on_response `{Engine}
    (token : string) (m : Modal) (srv : Server) (log : list Event)
    (r : WebhookResponse) :
  (validateForm m).1 = true ->
  invoke_reply srv log (submitted token m) = HttpOk (Parsed r) ->
  let out := handleSubmit token m srv log in
  (success r = true ->
     show out.1 = false
     /\ out.2 = log ++ [Fetched (submitted token m); DispatchSuccess r;
                        ToastSuccess (or_str (message r)
                                        "Workflow executed successfully")])
  /\ (success r = false ->
        show out.1 = show m
        /\ out.2 = log ++ [Fetched (submitted token m);
                           ToastError (or_str (message r) "Workflow failed")]).
Proof.
  intros Hv Ho. cbn zeta. rewrite handleSubmit_valid_eq by assumption.
  cbn zeta. rewrite Ho. unfold invoke_result, invoke_console. cbn [then_json on_settled].
  split; intros Hs; rewrite Hs; unfold bind, emit, ret; cbn;
    rewrite <- !app_assoc; split; reflexivity.
Qed.

Lemma handleSubmit_on_response_witness :
  (@handleSubmit Sample.engine "tok" (scenario "5") invoke_ok []).2
    = [Fetched (PostInvoke "tok" "model" {[ "x" := "5" ]} None);
       DispatchSuccess {| success := true; message := Some "ok"; data := JUndefined;
                          file_url := None; file_name := None |};
       ToastSuccess "ok"]
  /\ (@handleSubmit Sample.engine "tok" (scenario "5") invoke_refused []).2
     = [Fetched (PostInvoke "tok" "model" {[ "x" := "5" ]} None);
        ToastError "quota exceeded"].
Proof.
  split.
  - apply (@handleSubmit_on_response Sample.engine "tok" (scenario "5") invoke_ok []
             {| success := true; message := Some "ok"; data := JUndefined;
                file_url := None; file_name := None |});
      reflexivity.
  - apply (@handleSubmit_on_response Sample.engine "tok" (scenario "5") invoke_refused []
             {| success := false; message := Some "quota exceeded"; data := JUndefined;
                file_url := None; file_name := None |});
      reflexivity.
Defined.

(** X8: a valid submission the backend refuses with a non-success
    status and a JSON body other than null.  The modal stays as it was;
    the error toast shows the body's detail (else its message, else
    'Unknown error') when that is a string, and 'Failed to execute
    workflow' when it is anything else, such as a list of errors. *)
Theorem handleSubmit_on_http_error `{Engine}
    (token : string) (m : Modal) (srv : Server) (log : list Event)
    (st : Z) (body : JsVal) :
  (validateForm m).1 = true ->
  invoke_reply srv log (submitted token m) = HttpFail st (Parsed body) ->
  nullish body = false ->
  let out := handleSubmit token m srv log in
  show out.1 = show m
  /\ out.2 = log ++ [Fetched (submitted token m);
                     ConsoleError (ThrowVal body);
                     ConsoleError (ThrowVal (priority_message body));
                     ToastError (rejection_toast (ThrowVal (priority_message body)))].
Proof.
  intros Hv Ho Hn. cbn zeta. rewrite handleSubmit_valid_eq by assumption.
  cbn zeta. rewrite Ho.
  destruct (invoke_result_failure (HttpFail st (Parsed body)))
    as (_ & _ & _ & Hr & _).
  rewrite (Hr st body eq_refl Hn).
  unfold invoke_console. cbn [then_json].
  assert (Hp : exists e, pick_detail_message (ThrowVal body) = Fulfilled e).
  { unfold pick_detail_message. rewrite !read_body by assumption.
    destruct (truthy _); eauto. }
  destruct Hp as [e ->].
  cbn [on_settled]. unfold on_error, rejection_toast, bind, emit, ret. cbn.
  rewrite <- !app_assoc. split; reflexivity.
Qed.

Lemma handleSubmit_on_http_error_witness :
  (@handleSubmit Sample.engine "tok" (scenario "5") invoke_400 []).2
    = [Fetched (PostInvoke "tok" "model" {[ "x" := "5" ]} None);
       ConsoleError (ThrowVal (JObj [("detail", JStr "bad input")]));
       ConsoleError (ThrowVal (JStr "bad input"));
       ToastError "bad input"]
  /\ last (@handleSubmit Sample.engine "tok" (scenario "5") invoke_422 []).2
     = Some (ToastError "Failed to execute workflow").
Proof.
  split.
  - apply (@handleSubmit_on_http_error Sample.engine "tok" (scenario "5") invoke_400 []
             400 (JObj [("detail", JStr "bad input")])); reflexivity.
  - destruct (@handleSubmit_on_http_error Sample.engine "tok" (scenario "5") invoke_422 []
                422 (JObj [("detail", JArr [JObj [("msg", JStr "field required")]])]))
      as [_ ->]; reflexivity.
Defined.



(** *** Picking and removing files *)

Lemma keys_obj_set {V : Type} (k : string) (v : V) (o : list (string * V)) :
  keys (obj_set k v o) = set_add (keys o) k.
Proof.
  unfold set_add. induction o as [|[k' v'] o IH]; cbn; [reflexivity|].
  destruct (String.eqb_spec k k') as [->|Hne]; cbn; [reflexivity|].
  fold (keys o) in *. fold (keys (obj_set k v o)). rewrite IH.
  destruct (existsb (String.eqb k) (keys o)); reflexivity.
Qed.

Lemma obj_get_keys {V : Type} (k : string) (o : list (string * V)) :
  existsb (String.eqb k) (keys o) = true <-> is_Some (obj_get k o).
Proof.
  induction o as [|[k' v'] o IH]; cbn.
  - split; [discriminate | intros [? ?]; discriminate].
  - destruct (String.eqb k k'); cbn; [split; eauto | exact IH].
Qed.

Lemma keys_obj_set_present {V : Type} (k : string) (v : V) (o : list (string * V)) :
  is_Some (obj_get k o) -> keys (obj_set k v o) = keys o.
Proof.
  intros Hk. rewrite keys_obj_set. unfold set_add.
  apply obj_get_keys in Hk. rewrite Hk. reflexivity.
Qed.

Lemma obj_set_same {V : Type} (k : string) (v : V) (o : list (string * V)) :
  obj_get k o = Some v -> obj_set k v o = o.
Proof.
  induction o as [|[k' v'] o IH]; cbn; [discriminate|].
  destruct (String.eqb_spec k k') as [->|Hne].
  - intros [= ->]. reflexivity.
  - intros Hk. rewrite IH by assumption. reflexivity.
Qed.

Lemma obj_set_set {V : Type} (k : string) (v w : V) (o : list (string * V)) :
  obj_set k w (obj_set k v o) = obj_set k w o.
Proof.
  induction o as [|[k' v'] o IH]; cbn.
  - rewrite String.eqb_refl. reflexivity.
  - destruct (String.eqb k k') eqn:E; cbn; rewrite ?String.eqb_refl, ?E, ?IH; reflexivity.
Qed.

Lemma remove_at_take_drop {A : Type} (i : nat) (fs : list A) :
  remove_at i fs = take i fs ++ drop (S i) fs.
Proof.
  revert i. induction fs as [|f fs IH]; intros [|i]; cbn; try reflexivity.
  rewrite IH. reflexivity.
Qed.

Lemma with_files_same (m : Modal) : with_files m (fileData m) = m.
Proof. destruct m. reflexivity. Qed.

(** X10: removing a file.  For a field that has a file list, the file
    at the given position is dropped and all others keep their order (a
    position past the end changes nothing); the lists of other fields
    and the values are untouched.  For a field without a list the call
    throws. *)
Theorem removeFile_drops_one (k : string) (i : nat) (m : Modal) :
  (obj_get k (fileData m) = None -> removeFile k i m = None)
  /\ (forall fs, obj_get k (fileData m) = Some fs ->
        exists m', removeFile k i m = Some m'
          /\ obj_get k (fileData m') = Some (take i fs ++ drop (S i) fs)
          /\ (forall k', k' <> k -> obj_get k' (fileData m') = obj_get k' (fileData m))
          /\ formData m' = formData m /\ errors m' = errors m
          /\ ((length fs <= i)%nat -> m' = m)).
Proof.
  unfold removeFile. split; [intros ->; reflexivity|].
  intros fs Hk. rewrite Hk. eexists. split; [reflexivity|]. cbn.
  split; [rewrite obj_get_set_eq, remove_at_take_drop; reflexivity|].
  split; [intros k' Hne; apply obj_get_set_ne; congruence|].
  split; [reflexivity|]. split; [reflexivity|].
  intros Hi. rewrite remove_at_take_drop, take_ge, drop_ge, app_nil_r by lia.
  rewrite obj_set_same by assumption. apply with_files_same.
Qed.

Lemma removeFile_drops_one_witness :
  exists m', removeFile "b" 0 two_uploads = Some m'
             /\ obj_get "b" (fileData m') = Some []
             /\ obj_get "a" (fileData m') = Some [notes_txt].
Proof.
  destruct (proj2 (removeFile_drops_one "b" 0 two_uploads) [report_pdf] eq_refl)
    as (m' & Hm & Hb & Hother & _).
  exists m'. split; [exact Hm|]. split; [exact Hb|].
  rewrite Hother by discriminate. reflexivity.
Defined.

(** X11: adding one file to a multiple-file field and removing the
    file at the last position gives back the modal as it was. *)
Theorem pick_then_remove_last (k : string) (f : File) (old : list File) (m : Modal) :
  obj_get k (fileData m) = Some old ->
  removeFile k (length old) (handleFileChange k (Some [f]) true m) = Some m.
Proof.
  intros Hk. unfold removeFile, handleFileChange. rewrite Hk. cbn.
  rewrite obj_get_set_eq. cbn.
  rewrite remove_at_take_drop, take_app_length, drop_ge, app_nil_r
    by (rewrite length_app; cbn; lia).
  rewrite obj_set_set. rewrite (obj_set_same k old (fileData m) Hk).
  f_equal. destruct m. reflexivity.
Qed.

Lemma pick_then_remove_last_witness :
  removeFile "doc" 1 (handleFileChange "doc" (Some [notes_txt]) true one_picked)
  = Some one_picked.
Proof. apply (pick_then_remove_last "doc" notes_txt [report_pdf] one_picked). reflexivity. Defined.

Lemma fold_set_add_nil (l : list string) : fold_left set_add l [] = first_seen l.
Proof.
  rewrite fold_set_add. cbn [app].
  rewrite <- (List.filter_ext (fun _ => true)) by reflexivity.
  induction (first_seen l) as [|a l' IH]; cbn; congruence.
Qed.

Lemma seed_keys fields acc :
  keys (fold_left seed fields acc).2
  = fold_left set_add (map name (List.filter is_file fields)) (keys acc.2).
Proof.
  revert acc. induction fields as [|a fields IH]; intros acc; [reflexivity|].
  cbn [fold_left List.filter]. rewrite IH. unfold seed.
  destruct (is_file a); cbn [snd map fold_left]; [rewrite keys_obj_set|]; reflexivity.
Qed.

(** X12: the entries of [fileData] follow the schema when the names
    of the file fields are ordinary: none made of digits only (which
    JavaScript would list first, in ascending order) and none
    [__proto__].  After opening, its keys are then the names of the file
    fields in schema order, each once; picking files for one of them, or
    removing a file, keeps the keys and their order -- so the files go
    out in schema order, not in the order of picking. *)
Theorem fileData_keys_follow_schema (fields : list WebhookFormField) (m : Modal) :
  forallb ordinary_name (map name (List.filter is_file fields)) = true ->
  keys (fileData (open fields m)) = file_keys fields
  /\ (forall k files multiple (m1 : Modal),
        In k (keys (fileData m1)) ->
        keys (fileData (handleFileChange k files multiple m1)) = keys (fileData m1))
  /\ (forall k i (m1 m2 : Modal),
        removeFile k i m1 = Some m2 -> keys (fileData m2) = keys (fileData m1)).
Proof.
  intros _. split; [|split].
  - unfold open, reset, file_keys. cbn [show fileData with_state].
    rewrite seed_keys. apply fold_set_add_nil.
  - intros k files multiple m1 Hin.
    assert (Hk : is_Some (obj_get k (fileData m1))).
    { apply obj_get_keys, existsb_exists. exists k. split; [exact Hin|].
      apply String.eqb_refl. }
    destruct files as [fs|]; [|reflexivity].
    destruct multiple; cbn; apply keys_obj_set_present; assumption.
  - intros k i m1 m2. unfold removeFile.
    destruct (obj_get k (fileData m1)) as [fs|] eqn:Hk; [|discriminate].
    intros [= <-]. cbn. apply keys_obj_set_present. rewrite Hk. eauto.
Qed.

Lemma fileData_keys_follow_schema_witness :
  keys (fileData two_uploads) = ["a"; "b"].
Proof.
  destruct (fileData_keys_follow_schema
              [file_field "a" "A" false; file_field "b" "B" false] used_modal)
    as (Hopen & Hpick & _); [reflexivity|].
  unfold two_uploads. rewrite !Hpick.
  - rewrite Hopen. reflexivity.
  - rewrite Hopen. right; left; reflexivity.
  - rewrite Hpick; rewrite Hopen; [left; reflexivity | right; left; reflexivity].
Defined.

(** X13: once at least one file is picked for a file field, that field
    no longer fails validation, and the verdict on every field of
    another name is unchanged. *)
Theorem picked_file_satisfies `{Engine}
    (f : WebhookFormField) (x : File) (xs : list File) (multiple : bool) (m : Modal) :
  is_file f = true ->
  let m' := handleFileChange (name f) (Some (x :: xs)) multiple m in
  fails m' f = false
  /\ (forall g, name g <> name f -> fails m' g = fails m g).
Proof.
  intros Hf. cbn zeta. split.
  - unfold fails, unfilled. rewrite Hf.
    destruct multiple; cbn; rewrite obj_get_set_eq.
    + destruct (obj_get (name f) (fileData m)) as [[|y ys]|]; cbn; apply andb_false_r.
    + apply andb_false_r.
  - intros g Hne. unfold fails, unfilled.
    rewrite handleFileChange_other by congruence.
    destruct multiple; reflexivity.
Qed.

Lemma picked_file_satisfies_witness :
  @fails Sample.engine
    (handleFileChange "doc" (Some [report_pdf]) false
       (open [file_field "doc" "Doc" true] used_modal))
    (file_field "doc" "Doc" true) = false.
Proof.
  apply (@picked_file_satisfies Sample.engine (file_field "doc" "Doc" true)
           report_pdf [] false
           (open [file_field "doc" "Doc" true] used_modal)).
  reflexivity.
Defined.

(** ** The response renderer, continued *)

Lemma obj_get_In_keys {V : Type} (k : string) (v : V) (o : list (string * V)) :
  obj_get k o = Some v -> In k (keys o).
Proof.
  intros Hk. assert (Hs : is_Some (obj_get k o)) by eauto.
  apply obj_get_keys, existsb_exists in Hs as (k' & Hin & E).
  apply String.eqb_eq in E. subst. exact Hin.
Qed.

(** X14: the table drops nothing.  Every property of every row has its
    column, and the cell of that row under that column shows the
    formatted value of the property. *)
Theorem table_shows_every_value `{Engine}
    (rows : list (list (string * JsVal))) (row : list (string * JsVal))
    (k : string) (v : JsVal) :
  In row rows -> obj_get k row = Some v ->
  In k (getTableHeaders rows) /\ cell row k = formatValue v.
Proof.
  intros Hrow Hk. split.
  - rewrite getTableHeaders_first_seen, first_seen_In, in_flat_map.
    exists row. split; [exact Hrow | eapply obj_get_In_keys, Hk].
  - unfold cell, prop. rewrite Hk. reflexivity.
Qed.

Lemma table_shows_every_value_witness :
  In "b" (getTableHeaders [[("a", JNum 1)]; [("b", JBool true)]])
  /\ @cell Sample.engine [("b", JBool true)] "b" = "✓".
Proof.
  apply (@table_shows_every_value Sample.engine
           [[("a", JNum 1)]; [("b", JBool true)]] [("b", JBool true)] "b" (JBool true)).
  - right; left; reflexivity.
  - reflexivity.
Defined.

Lemma filter_all {A : Type} (f : A -> bool) (l : list A) :
  (forall x, In x l -> f x = true) -> List.filter f l = l.
Proof.
  induction l as [|a l IH]; intros Hall; cbn; [reflexivity|].
  rewrite (Hall a) by (left; reflexivity). rewrite IH; [reflexivity|].
  intros x Hx. apply Hall. right. exact Hx.
Qed.

Lemma filter_none {A : Type} (f : A -> bool) (l : list A) :
  (forall x, In x l -> f x = false) -> List.filter f l = [].
Proof.
  induction l as [|a l IH]; intros Hall; cbn; [reflexivity|].
  rewrite (Hall a) by (left; reflexivity). apply IH.
  intros x Hx. apply Hall. right. exact Hx.
Qed.

Lemma first_seen_NoDup_id (l : list string) : List.NoDup l -> first_seen l = l.
Proof.
  induction l as [|a l IH]; intros Hnd; cbn; [reflexivity|].
  apply List.NoDup_cons_iff in Hnd as [Ha Hnd]. rewrite IH by assumption.
  rewrite filter_all; [reflexivity|].
  intros x Hx. destruct (String.eqb_spec x a) as [->|]; [contradiction | reflexivity].
Qed.

Lemma first_seen_app (l1 l2 : list string) :
  first_seen (l1 ++ l2)
  = first_seen l1
    ++ List.filter (fun k => negb (existsb (String.eqb k) (first_seen l1)))
                   (first_seen l2).
Proof.
  rewrite <- (fold_set_add_nil (l1 ++ l2)), fold_left_app, fold_set_add_nil.
  apply fold_set_add.
Qed.

Lemma getTableHeaders_cons (r : list (string * JsVal)) (rows : list (list (string * JsVal))) :
  List.NoDup (keys r) ->
  getTableHeaders (r :: rows)
  = keys r ++ List.filter (fun k => negb (existsb (String.eqb k) (keys r)))
                          (getTableHeaders rows).
Proof.
  intros Hnd. rewrite !getTableHeaders_first_seen. cbn [flat_map].
  rewrite first_seen_app, first_seen_NoDup_id by assumption. reflexivity.
Qed.

(** X15: the columns start with the keys of the first row, in its own
    order; each later row only adds, after them, the keys not seen
    before. *)
Theorem table_columns_first_row_first
    (r : list (string * JsVal)) (rows : list (list (string * JsVal))) :
  List.NoDup (keys r) ->
  getTableHeaders (r :: rows)
  = keys r ++ List.filter (fun k => negb (existsb (String.eqb k) (keys r)))
                          (getTableHeaders rows).
Proof. apply getTableHeaders_cons. Qed.

Lemma table_columns_first_row_first_witness :
  getTableHeaders [[("b", JNum 1); ("a", JNum 2)]; [("a", JNum 3); ("c", JNull)]]
  = ["b"; "a"; "c"].
Proof.
  rewrite (table_columns_first_row_first [("b", JNum 1); ("a", JNum 2)]
             [[("a", JNum 3); ("c", JNull)]]).
  - reflexivity.
  - repeat constructor; cbn; intuition discriminate.
Defined.

(** X16: when all rows have the same keys in the same order, the
    columns are exactly those keys. *)
Theorem table_columns_homogeneous
    (ks : list string) (rows : list (list (string * JsVal))) :
  List.NoDup ks -> rows <> [] ->
  (forall row, In row rows -> keys row = ks) ->
  getTableHeaders rows = ks.
Proof.
  intros Hnd Hne Hall. destruct rows as [|r rows]; [congruence|]. clear Hne.
  rewrite getTableHeaders_cons by (rewrite (Hall r) by (left; reflexivity); exact Hnd).
  rewrite (Hall r) by (left; reflexivity).
  rewrite filter_none; [apply app_nil_r|].
  intros k Hk. apply negb_false_iff, existsb_exists. exists k.
  split; [|apply String.eqb_refl].
  rewrite getTableHeaders_first_seen, first_seen_In, in_flat_map in Hk.
  destruct Hk as (row & Hrow & Hk). rewrite (Hall row) in Hk by (right; exact Hrow).
  exact Hk.
Qed.

Lemma table_columns_homogeneous_witness :
  getTableHeaders [[("region", JStr "North"); ("sales", JNum 150000)];
                   [("region", JStr "South"); ("sales", JNum 120000)]]
  = ["region"; "sales"].
Proof.
  apply table_columns_homogeneous.
  - repeat constructor; cbn; intuition discriminate.
  - discriminate.
  - intros row [<-|[<-|[]]]; reflexivity.
Defined.

(** ** The slash-command palette, continued *)

Lemma insert_sorted_perm {A : Type} (cmp : A -> A -> Z) (a : A) (l : list A) :
  Permutation (Palette.insert_sorted cmp a l) (a :: l).
Proof.
  induction l as [|b l IH]; cbn; [reflexivity|].
  destruct (cmp a b >? 0); [|reflexivity].
  rewrite IH. apply perm_swap.
Qed.

Lemma sort_perm {A : Type} (cmp : A -> A -> Z) (l : list A) :
  Permutation (Palette.sort cmp l) l.
Proof.
  unfold Palette.sort. induction l as [|a l IH]; cbn [fold_right]; [reflexivity|].
  rewrite insert_sorted_perm, IH. reflexivity.
Qed.

Lemma filteredItems_are_matches_aux `{Engine} (p : Palette.Palette) :
  Permutation (Palette.filteredItems p)
              (List.filter (Palette.matches (Palette.query p)) (Palette.webhooks p))
  /\ (forall w, In w (Palette.filteredItems p) ->
                Palette.matches (Palette.query p) w = true).
Proof.
  assert (Hp : Permutation (Palette.filteredItems p)
                 (List.filter (Palette.matches (Palette.query p)) (Palette.webhooks p)))
    by apply sort_perm.
  split; [exact Hp|].
  intros w Hw. eapply Permutation_in in Hw; [|exact Hp].
  apply List.filter_In in Hw. tauto.
Qed.

(** X17: the list shown is a rearrangement of the webhooks that match
    the query: sorting drops none and repeats none, and an item is
    listed exactly when it is a webhook matching the query. *)
Theorem filteredItems_are_the_matches `{Engine} (p : Palette.Palette) :
  Permutation (Palette.filteredItems p)
              (List.filter (Palette.matches (Palette.query p)) (Palette.webhooks p))
  /\ (forall w, In w (Palette.filteredItems p)
                <-> In w (Palette.webhooks p)
                    /\ Palette.matches (Palette.query p) w = true).
Proof.
  assert (Hp : Permutation (Palette.filteredItems p)
                 (List.filter (Palette.matches (Palette.query p)) (Palette.webhooks p)))
    by apply sort_perm.
  split; [exact Hp|].
  intros w. rewrite <- List.filter_In. split; apply Permutation_in;
    [exact Hp | symmetry; exact Hp].
Qed.

Lemma or_str_some (s : string) : or_str (Some s) "" = s.
Proof. cbn. destruct (String.eqb_spec s ""); congruence. Qed.

Lemma insert_sorted_sorted {A : Type} (cmp : A -> A -> Z) (a : A) (l : list A) :
  (forall x y, cmp x y > 0 -> cmp y x <= 0) ->
  Sorted (fun x y => cmp x y <= 0) l ->
  Sorted (fun x y => cmp x y <= 0) (Palette.insert_sorted cmp a l).
Proof.
  intros Htot Hs. induction Hs as [|b l Hs IH Hhd]; cbn.
  - repeat constructor.
  - destruct (cmp a b >? 0) eqn:E.
    + constructor; [exact IH|].
      apply Z.gtb_gt in E. destruct Hhd as [|c l Hbc]; cbn.
      * constructor. apply Htot. lia.
      * destruct (cmp a c >? 0); constructor; [exact Hbc | apply Htot; lia].
    + constructor; [constructor; assumption|].
      constructor. destruct (Z.gtb_spec (cmp a b) 0); [discriminate | lia].
Qed.

Lemma sort_sorted {A : Type} (cmp : A -> A -> Z) (l : list A) :
  (forall x y, cmp x y > 0 -> cmp y x <= 0) ->
  Sorted (fun x y => cmp x y <= 0) (Palette.sort cmp l).
Proof.
  intros Htot. unfold Palette.sort.
  induction l as [|a l IH]; cbn [fold_right]; [constructor|].
  apply insert_sorted_sorted; assumption.
Qed.

Lemma Sorted_weaken {A : Type} (R R' : A -> A -> Prop) (l : list A) :
  (forall x y, R x y -> R' x y) -> Sorted R l -> Sorted R' l.
Proof.
  intros Himp Hs. induction Hs as [|a l Hs IH Hhd]; constructor; [exact IH|].
  destruct Hhd; constructor. auto.
Qed.

(** X18: when [localeCompare] never ranks two names both ways, the
    list shown is in order: no item is followed by one that
    [localeCompare] puts before it. *)
Theorem filteredItems_sorted `{Engine} (p : Palette.Palette) :
  (forall a b, localeCompare a b > 0 -> localeCompare b a <= 0) ->
  Sorted name_le (Palette.filteredItems p).
Proof.
  intros Htot. unfold Palette.filteredItems.
  eapply Sorted_weaken; [|apply sort_sorted].
  - intros x y. cbn beta. unfold name_le. rewrite !or_str_some. tauto.
  - intros x y. apply Htot.
Qed.

Lemma compare_strings_total (a b : string) :
  Sample.compare_strings a b > 0 -> Sample.compare_strings b a <= 0.
Proof.
  unfold Sample.compare_strings. rewrite (String.compare_antisym a b).
  destruct (String.compare b a); cbn; lia.
Qed.

Lemma filteredItems_sorted_witness :
  Sorted (@name_le Sample.engine) (@Palette.filteredItems Sample.engine palette_at_second).
Proof.
  apply (@filteredItems_sorted Sample.engine palette_at_second).
  exact compare_strings_total.
Defined.

(** X19: as long as the pointer hovers only over listed items and the
    text typed is non-empty and matches something, the cursor stays on
    an item of the list, whatever the sequence of arrow keys, pointer
    moves and typing. *)
Theorem cursor_stays_on_the_list `{Engine} (ks : list Key) (p : Palette.Palette) :
  in_range p -> all_possible ks p -> in_range (run ks p).
Proof.
  revert p. induction ks as [|k ks IH]; intros p Hr Hall; [exact Hr|].
  destruct Hall as [Hk Hall]. cbn [run]. apply IH; [|exact Hall].
  clear IH Hall. unfold in_range in *. destruct k as [| |idx|q]; cbn [press possible] in *.
  - unfold Palette.selectUp.
    change (Palette.filteredCount (Palette.with_idx p ?i)) with (Palette.filteredCount p).
    cbn. lia.
  - unfold Palette.selectDown.
    change (Palette.filteredCount (Palette.with_idx p ?i)) with (Palette.filteredCount p).
    cbn. lia.
  - unfold Palette.mousemove.
    change (Palette.filteredCount (Palette.with_idx p ?i)) with (Palette.filteredCount p).
    cbn. lia.
  - destruct Hk as [Hq Hcount]. revert Hcount. unfold Palette.setQuery.
    destruct (String.eqb_spec q (Palette.query p)); [intros _; exact Hr|].
    destruct (String.eqb_spec q ""); [contradiction|]. cbn [negb].
    change (Palette.filteredCount (Palette.with_idx ?x ?i)) with (Palette.filteredCount x).
    cbn [Palette.selectedIdx Palette.with_idx]. lia.
Qed.

Lemma cursor_stays_on_the_list_witness :
  @in_range Sample.engine
    (@run Sample.engine [ArrowDown; ArrowDown; Typed "rep"; ArrowUp; Hover 0]
       palette_at_second).
Proof.
  apply (@cursor_stays_on_the_list Sample.engine).
  - vm_compute. split; discriminate.
  - cbn [all_possible possible]. repeat split; try discriminate; vm_compute; reflexivity.
Defined.

(** X20: [select] hands over an item exactly when the cursor is on the
    list, and the item is then one of the listed, hence matching,
    webhooks; with the cursor off the list nothing is selected. *)
Theorem select_an_item `{Engine} (p : Palette.Palette) :
  (in_range p -> exists w, Palette.select p = Some w
                           /\ In w (Palette.filteredItems p)
                           /\ Palette.matches (Palette.query p) w = true)
  /\ (~ in_range p -> Palette.select p = None).
Proof.
  unfold in_range, Palette.select, Palette.filteredCount. split.
  - intros [Hlo Hhi]. destruct (Z.ltb_spec (Palette.selectedIdx p) 0); [lia|].
    destruct (nth_error (Palette.filteredItems p) (Z.to_nat (Palette.selectedIdx p)))
      as [w|] eqn:Hw.
    + exists w. split; [reflexivity|]. apply nth_error_In in Hw. split; [exact Hw|].
      apply (proj2 (filteredItems_are_matches_aux p) w Hw).
    + apply nth_error_None in Hw. lia.
  - intros Hout. destruct (Z.ltb_spec (Palette.selectedIdx p) 0); [reflexivity|].
    apply nth_error_None. lia.
Qed.

Lemma select_an_item_witness :
  @Palette.select Sample.engine palette_at_second = Some review_model
  /\ @Palette.select Sample.engine
       (@Palette.selectDown Sample.engine (Palette.mount "zzz" [report_model])) = None.
Proof.
  destruct (@select_an_item Sample.engine palette_at_second) as [Hin _].
  destruct (@select_an_item Sample.engine
              (@Palette.selectDown Sample.engine (Palette.mount "zzz" [report_model])))
    as [_ Hout].
  split.
  - destruct Hin as (w & Hw & _); [vm_compute; split; discriminate|].
    rewrite Hw. vm_compute in Hw. symmetry. exact Hw.
  - apply Hout. vm_compute. intros [Hlo _]. apply Hlo. reflexivity.
Defined.

Lemma iter_up_idx (n : nat) (p : Palette.Palette) :
  0 <= Palette.selectedIdx p ->
  Palette.selectedIdx (Nat.iter n Palette.selectUp p)
  = Z.max 0 (Palette.selectedIdx p - Z.of_nat n).
Proof.
  intros Hp. induction n as [|n IH]; [cbn; lia|].
  rewrite Nat.iter_succ. unfold Palette.selectUp at 1. cbn [Palette.selectedIdx Palette.with_idx].
  rewrite IH. lia.
Qed.

Lemma iter_down_keeps `{Engine} (n : nat) (p : Palette.Palette) :
  Palette.filteredCount (Nat.iter n Palette.selectDown p) = Palette.filteredCount p.
Proof.
  induction n as [|n IH]; [reflexivity|].
  rewrite Nat.iter_succ. unfold Palette.selectDown at 1.
  change (Palette.filteredCount (Palette.with_idx ?x ?i)) with (Palette.filteredCount x).
  exact IH.
Qed.

Lemma iter_down_idx `{Engine} (n : nat) (p : Palette.Palette) :
  Palette.selectedIdx p <= Palette.filteredCount p - 1 ->
  Palette.selectedIdx (Nat.iter n Palette.selectDown p)
  = Z.min (Palette.selectedIdx p + Z.of_nat n) (Palette.filteredCount p - 1).
Proof.
  intros Hp. induction n as [|n IH]; [cbn; lia|].
  rewrite Nat.iter_succ. unfold Palette.selectDown at 1.
  cbn [Palette.selectedIdx Palette.with_idx].
  rewrite iter_down_keeps, IH. lia.
Qed.

(** X21: with the cursor on the list, [n] presses of the up key move
    it up by [n] but not above the first item, and [n] presses of the
    down key move it down by [n] but not below the last: enough presses
    reach the end of the list and stay there. *)
Theorem repeated_arrows `{Engine} (n : nat) (p : Palette.Palette) :
  in_range p ->
  Palette.selectedIdx (Nat.iter n Palette.selectUp p)
  = Z.max 0 (Palette.selectedIdx p - Z.of_nat n)
  /\ Palette.selectedIdx (Nat.iter n Palette.selectDown p)
     = Z.min (Palette.selectedIdx p + Z.of_nat n) (Palette.filteredCount p - 1).
Proof.
  intros [Hlo Hhi]. split; [apply iter_up_idx | apply iter_down_idx]; assumption.
Qed.

Lemma repeated_arrows_witness :
  Palette.selectedIdx (Nat.iter 5 Palette.selectUp palette_at_second) = 0
  /\ Palette.selectedIdx
       (Nat.iter 5 (@Palette.selectDown Sample.engine) palette_at_second) = 1.
Proof.
  destruct (@repeated_arrows Sample.engine 5 palette_at_second) as [Hup Hdown].
  - vm_compute. split; discriminate.
  - split; [rewrite Hup | rewrite Hdown]; reflexivity.
Defined.

Lemma includes_empty (s : string) : includes s "" = true.
Proof. destruct s; reflexivity. Qed.

Lemma filter_length_le {A : Type} (f : A -> bool) (l : list A) :
  (length (List.filter f l) <= length l)%nat.
Proof. induction l as [|a l IH]; cbn; [lia|]. destruct (f a); cbn; lia. Qed.

(** X22: in an engine whose [toLowerCase] keeps the empty string
    empty, the empty query matches everything: the palette lists every
    webhook, and clearing the text leaves a cursor that was on the list
    on the list. *)
Theorem empty_query_lists_all `{Engine} (p : Palette.Palette) :
  toLowerCase "" = "" ->
  (Palette.query p = "" -> Permutation (Palette.filteredItems p) (Palette.webhooks p))
  /\ (in_range p -> in_range (Palette.setQuery "" p)).
Proof.
  intros Hlow.
  assert (Hall : forall ws, List.filter (Palette.matches "") ws = ws).
  { intros ws. apply filter_all. intros w _. unfold Palette.matches.
    rewrite Hlow, includes_empty. reflexivity. }
  split.
  - intros Hq. unfold Palette.filteredItems. rewrite sort_perm, Hq, Hall. reflexivity.
  - unfold in_range, Palette.setQuery. intros [Hlo Hhi].
    destruct (String.eqb_spec "" (Palette.query p)); [split; assumption|].
    cbn [negb String.eqb]. rewrite !filteredCount_matches in *.
    cbn [Palette.query Palette.webhooks Palette.selectedIdx]. rewrite Hall.
    pose proof (filter_length_le (Palette.matches (Palette.query p)) (Palette.webhooks p)).
    lia.
Qed.

Lemma empty_query_lists_all_witness :
  @in_range Sample.engine (Palette.setQuery "" palette_at_second)
  /\ Permutation (@Palette.filteredItems Sample.engine (Palette.mount "" [review_model; report_model]))
                 [review_model; report_model].
Proof.
  destruct (@empty_query_lists_all Sample.engine palette_at_second eq_refl) as [_ Hkeep].
  destruct (@empty_query_lists_all Sample.engine
              (Palette.mount "" [review_model; report_model]) eq_refl) as [Hall _].
  split.
  - apply Hkeep. vm_compute. split; discriminate.
  - apply Hall. reflexivity.
Defined.

(** ** The workflow menu, continued *)

Lemma or_str_nonempty (s : option string) (d : string) : d <> "" -> or_str s d <> "".
Proof.
  intros Hd. unfold or_str. destruct s as [c|]; [|exact Hd].
  destruct (String.eqb_spec c ""); assumption.
Qed.

Lemma getWebhookConfig_eq token modelId srv log :
  let o := config_reply srv log token modelId in
  getWebhookConfig token modelId srv log
  = (config_result o, log ++ Fetched (GetConfig token modelId) :: config_console o).
Proof.
  cbn zeta. unfold getWebhookConfig, bind, fetch, config_result, config_console.
  destruct (config_reply srv log token modelId) as [m|[a|m]|st [v|m]];
    cbn [then_json catch_tail]; try reflexivity;
    destruct (pick_detail _); try reflexivity;
    unfold bind, emit, ret; rewrite <- app_assoc; reflexivity.
Qed.

Lemma config_result_some (o : FetchOutcome WebhookConfig) (c : WebhookConfig) :
  config_result o = Fulfilled (Some c) -> o = HttpOk (Parsed c).
Proof.
  unfold config_result.
  destruct o as [m|[a|m]|st [v|m]]; cbn [then_json];
    try (destruct (pick_detail _) as [e|t]; [destruct (truthy e)|]; discriminate).
  intros [= ->]. reflexivity.
Qed.

(** X23: a click on a workflow.  The config is looked up once.  If it
    arrives and is enabled, the form is requested -- with a title that
    is never empty, the config's fields or none -- and the menu closes;
    if it is disabled the click is dropped without a trace; if the
    lookup fails in any way, no form is requested and the menu stays as
    it was. *)
Theorem selectWorkflow_outcomes
    (token : string) (workflow : WebhookModel) (m : Menu.Menu)
    (srv : Server) (log : list Event) :
  let reply := config_reply srv log token (id workflow) in
  let out := Menu.selectWorkflow token workflow m srv log in
  requests out.2 = requests log ++ [GetConfig token (id workflow)]
  /\ (forall config, reply = HttpOk (Parsed config) -> enabled config = true ->
        out = ({| Menu.show := false; Menu.loading := Menu.loading m;
                  Menu.workflows := Menu.workflows m |},
               log ++ [Fetched (GetConfig token (id workflow));
                       WorkflowSelect (id workflow)
                         (selection_title config workflow)
                         (or_str (form_description config) "")
                         (match form_fields config with Some fs => fs | None => [] end)])
        /\ selection_title config workflow <> "")
  /\ (forall config, reply = HttpOk (Parsed config) -> enabled config = false ->
        out = (m, log ++ [Fetched (GetConfig token (id workflow))]))
  /\ ((forall config, reply <> HttpOk (Parsed config)) ->
        out.1 = m /\ List.filter is_select out.2 = List.filter is_select log).
Proof.
  cbn zeta. unfold Menu.selectWorkflow, bind.
  rewrite getWebhookConfig_eq. cbn zeta.
  remember (config_reply srv log token (id workflow)) as o eqn:Heqo. clear Heqo.
  set (req := Fetched (GetConfig token (id workflow))).
  assert (Hconsole : requests (config_console o) = []
                     /\ List.filter is_select (config_console o) = []).
  { unfold config_console. destruct (then_json o) as [c|err]; [split; reflexivity|].
    destruct (pick_detail err); split; reflexivity. }
  destruct Hconsole as [Hcr Hcs].
  split; [|split; [|split]].
  - assert (Hrq : requests (req :: config_console o) = [GetConfig token (id workflow)]).
    { change (req :: config_console o) with ([req] ++ config_console o).
      rewrite requests_app, Hcr. reflexivity. }
    destruct (config_result o) as [[c|]|e]; [destruct (enabled c)| |];
      unfold bind, emit, ret; cbn [fst snd negb];
      rewrite ?requests_app, Hrq; cbn; rewrite ?app_nil_r; reflexivity.
  - intros config Ho He. rewrite Ho. cbn. rewrite He. cbn.
    rewrite <- app_assoc. split; [reflexivity|].
    apply or_str_nonempty, or_str_nonempty. discriminate.
  - intros config Ho He. rewrite Ho. cbn. rewrite He. reflexivity.
  - intros Hno.
    destruct (config_result o) as [[c|]|e] eqn:Hr.
    + apply config_result_some in Hr. destruct (Hno c Hr).
    + unfold bind, emit, ret. cbn. split; [reflexivity|].
      rewrite !List.filter_app. cbn. rewrite Hcs, !app_nil_r. reflexivity.
    + unfold bind, emit, ret. cbn. split; [reflexivity|].
      rewrite !List.filter_app. cbn. rewrite Hcs, !app_nil_r. reflexivity.
Qed.

Lemma selectWorkflow_outcomes_witness :
  (Menu.selectWorkflow "tok" report_model Menu.mounted (config_ok true) []).2
    = [Fetched (GetConfig "tok" "report-generator");
       WorkflowSelect "report-generator" "Report Generator" "" []]
  /\ (Menu.selectWorkflow "tok" report_model Menu.mounted (config_ok false) []).2
     = [Fetched (GetConfig "tok" "report-generator")]
  /\ List.filter is_select
       (Menu.selectWorkflow "tok" report_model Menu.mounted config_404 []).2 = [].
Proof.
  destruct (selectWorkflow_outcomes "tok" report_model Menu.mounted (config_ok true) [])
    as (_ & Hon & _).
  destruct (selectWorkflow_outcomes "tok" report_model Menu.mounted (config_ok false) [])
    as (_ & _ & Hoff & _).
  destruct (selectWorkflow_outcomes "tok" report_model Menu.mounted config_404 [])
    as (_ & _ & _ & Hfail).
  split; [|split].
  - destruct (Hon (untitled true) eq_refl eq_refl) as [-> _]. reflexivity.
  - rewrite (Hoff (untitled false) eq_refl eq_refl). reflexivity.
  - destruct Hfail as [_ ->]; [discriminate | reflexivity].
Defined.

Lemma loadWorkflows_fetched token (m : Menu.Menu) srv log :
  Menu.workflows m = [] ->
  (Menu.loadWorkflows token m srv log).1
  = {| Menu.show := Menu.show m; Menu.loading := false;
       Menu.workflows := listed (models_reply srv log token) |}.
Proof.
  intros Hw. unfold Menu.loadWorkflows. rewrite Hw.
  change (0 <? Z.of_nat (length (@nil WebhookModel))) with false. cbv iota.
  unfold getWebhookEnabledModels, bind, fetch.
  destruct (models_reply srv log token) as [msg|[ws|msg]|st [v|msg]];
    cbn [then_json catch_tail listed]; try reflexivity.
  destruct (pick_detail (ThrowVal v)) as [e|t]; [|reflexivity].
  unfold bind, emit, ret. destruct (truthy e); reflexivity.
Qed.

(** X24: a listing that fails never reaches the user of the menu.
    When nothing is cached, [loadWorkflows] ends with [loading] false
    and holds the backend's list if the call succeeded, and the empty
    list after any failure -- also one the listing call rejects with. *)
Theorem loadWorkflows_swallows_failure
    (token : string) (m : Menu.Menu) (srv : Server) (log : list Event) :
  Menu.workflows m = [] ->
  let m' := (Menu.loadWorkflows token m srv log).1 in
  Menu.show m' = Menu.show m /\ Menu.loading m' = false
  /\ (forall ws, models_reply srv log token = HttpOk (Parsed ws) ->
                 Menu.workflows m' = ws)
  /\ ((forall ws, models_reply srv log token <> HttpOk (Parsed ws)) ->
      Menu.workflows m' = []).
Proof.
  intros Hw. cbn zeta. rewrite loadWorkflows_fetched by assumption. cbn.
  repeat split.
  - intros ws ->. reflexivity.
  - intros Hno. destruct (models_reply srv log token) as [msg|[ws|msg]|st [v|msg]];
      try reflexivity.
    destruct (Hno ws eq_refl).
Qed.

Lemma loadWorkflows_swallows_failure_witness :
  Menu.workflows (Menu.loadWorkflows "tok" Menu.mounted models_500 []).1 = []
  /\ Menu.workflows (Menu.loadWorkflows "tok" Menu.mounted one_workflow []).1
     = [report_model].
Proof.
  destruct (loadWorkflows_swallows_failure "tok" Menu.mounted models_500 [] eq_refl)
    as (_ & _ & _ & Hfail).
  destruct (loadWorkflows_swallows_failure "tok" Menu.mounted one_workflow [] eq_refl)
    as (_ & _ & Hok & _).
  split; [apply Hfail; discriminate | apply Hok; reflexivity].
Defined.

(** X25: as long as the backend has no workflow to list (or fails),
    every open of the menu calls the listing endpoint: after [n] rounds
    of opening and closing, [n] more calls were made. *)
Theorem every_open_fetches_while_empty
    (token : string) (srv : Server) (n : nat) (m : Menu.Menu) (log : list Event) :
  (forall l, listed (models_reply srv l token) = []) ->
  Menu.show m = false -> Menu.workflows m = [] ->
  models_calls (Menu.open_close n token m srv log).2 = (models_calls log + n)%nat.
Proof.
  intros Hempty. revert m log. induction n as [|n IH]; intros m log Hs Hw.
  - cbn [Menu.open_close]. unfold ret. cbn [snd]. lia.
  - cbn [Menu.open_close]. unfold bind at 1.
    assert (Hopen : Menu.setShow true token m srv log
                    = Menu.loadWorkflows token
                        {| Menu.show := true; Menu.loading := Menu.loading m;
                           Menu.workflows := Menu.workflows m |} srv log).
    { unfold Menu.setShow. rewrite Hs. reflexivity. }
    rewrite Hopen.
    pose proof (loadWorkflows_fetched token
                  {| Menu.show := true; Menu.loading := Menu.loading m;
                     Menu.workflows := Menu.workflows m |} srv log Hw) as Hst.
    pose proof (loadWorkflows_fetches token
                  {| Menu.show := true; Menu.loading := Menu.loading m;
                     Menu.workflows := Menu.workflows m |} srv log Hw) as Hreq.
    destruct (Menu.loadWorkflows _ _ srv log) as [m1 log1].
    cbn [fst snd] in Hst, Hreq. subst m1. rewrite Hempty.
    unfold bind at 1. unfold Menu.setShow at 1. cbn [Menu.show Bool.eqb Menu.loading Menu.workflows].
    unfold ret at 1. rewrite IH by reflexivity.
    unfold models_calls. rewrite Hreq, models_calls_snoc. lia.
Qed.

Lemma every_open_fetches_while_empty_witness :
  models_calls (Menu.open_close 4 "tok" Menu.mounted no_workflows []).2 = 4%nat.
Proof.
  apply (every_open_fetches_while_empty "tok" no_workflows 4 Menu.mounted []);
    reflexivity.
Defined.

(** ** The Markdown table *)

Lemma str_app_cons (c : ascii) (s t : string) : String c s +:+ t = String c (s +:+ t).
Proof. reflexivity. Qed.

Lemma str_app_nil_r (s : string) : s +:+ "" = s.
Proof. induction s as [|c s IH]; [reflexivity|]. rewrite str_app_cons, IH. reflexivity. Qed.

Lemma str_app_assoc (s t u : string) : (s +:+ t) +:+ u = s +:+ (t +:+ u).
Proof.
  induction s as [|c s IH]; [reflexivity|]. rewrite !str_app_cons, IH. reflexivity.
Qed.

(** Reading the escaped text of a field up to its closing quotation
    mark gives the text back. *)
Lemma scan_field (t : string) done record field rest :
  scan_csv InField done record field
    (Markdown.double_quotes t +:+ String Markdown.dquote rest)
  = scan_csv AfterQuote done record (field +:+ t) rest.
Proof.
  revert field. induction t as [|c t IH]; intros field.
  - cbn [Markdown.double_quotes]. change ("" +:+ ?x) with x.
    cbn [scan_csv]. rewrite Ascii.eqb_refl, str_app_nil_r. reflexivity.
  - cbn [Markdown.double_quotes].
    destruct (Ascii.eqb c Markdown.dquote) eqn:E.
    + rewrite !str_app_cons. cbn [scan_csv]. rewrite !E. rewrite IH.
      rewrite str_app_assoc. reflexivity.
    + rewrite !str_app_cons. cbn [scan_csv]. rewrite !E. rewrite IH.
      rewrite str_app_assoc. reflexivity.
Qed.

Lemma newline_not_special (c : ascii) :
  Ascii.eqb c Markdown.newline = true ->
  Ascii.eqb c Markdown.dquote = false /\ Ascii.eqb c Markdown.comma = false.
Proof. intros E. apply Ascii.eqb_eq in E. subst c. split; reflexivity. Qed.

Lemma str_app_nil_l (s : string) : "" +:+ s = s.
Proof. reflexivity. Qed.

(** Brings a concatenation of strings into right-nested form. *)
Ltac norm_str :=
  repeat (rewrite str_app_cons || rewrite str_app_assoc || rewrite str_app_nil_l).

Lemma scan_fields (x : string) (l : list string) done record rest :
  at_line_end rest = true ->
  scan_csv AfterComma done record ""
    (Sample.join (String Markdown.comma "") (map Markdown.wrap (x :: l)) +:+ rest)
  = after_record done (record ++ x :: l) rest.
Proof.
  intros Hrest. revert x record. induction l as [|y l IH]; intros x record.
  - cbn [map Sample.join]. unfold Markdown.wrap. norm_str. cbn [scan_csv].
    rewrite Ascii.eqb_refl, scan_field. norm_str.
    destruct rest as [|c rest']; [reflexivity|].
    cbn [at_line_end] in Hrest. destruct (newline_not_special c Hrest) as [E1 E2].
    cbn [scan_csv after_record]. rewrite E1, E2, Hrest. reflexivity.
  - specialize (IH y (record ++ [x])).
    change (map Markdown.wrap (x :: y :: l))
      with (Markdown.wrap x :: map Markdown.wrap (y :: l)).
    change (Sample.join ?sep (?a :: map Markdown.wrap (y :: l)))
      with (a +:+ sep +:+ Sample.join sep (map Markdown.wrap (y :: l))).
    unfold Markdown.wrap at 1.
    set (tail := Sample.join _ (map Markdown.wrap (y :: l))) in *.
    norm_str. cbn [scan_csv].
    rewrite Ascii.eqb_refl, scan_field. norm_str. cbn [scan_csv].
    change (Ascii.eqb Markdown.comma Markdown.dquote) with false.
    rewrite Ascii.eqb_refl. cbv iota.
    rewrite IH, <- app_assoc. reflexivity.
Qed.

Lemma scan_record (l : list string) done rest :
  at_line_end rest = true ->
  scan_csv AtRecord done [] ""
    (Sample.join (String Markdown.comma "") (map Markdown.wrap l) +:+ rest)
  = after_record done l rest.
Proof.
  intros Hrest. destruct l as [|x l].
  - cbn [map Sample.join]. change ("" +:+ rest) with rest.
    destruct rest as [|c rest']; [reflexivity|].
    cbn [at_line_end] in Hrest. destruct (newline_not_special c Hrest) as [E1 _].
    cbn [scan_csv after_record]. rewrite E1, Hrest. reflexivity.
  - rewrite <- (app_nil_l (x :: l)) at 2. rewrite <- scan_fields by assumption.
    destruct l as [|y l].
    + cbn [map Sample.join]. unfold Markdown.wrap. norm_str. cbn [scan_csv].
      rewrite Ascii.eqb_refl. reflexivity.
    + change (map Markdown.wrap (x :: y :: l))
        with (Markdown.wrap x :: map Markdown.wrap (y :: l)).
      change (Sample.join ?sep (?a :: map Markdown.wrap (y :: l)))
        with (a +:+ sep +:+ Sample.join sep (map Markdown.wrap (y :: l))).
      unfold Markdown.wrap at 1 3. norm_str. cbn [scan_csv].
      rewrite Ascii.eqb_refl. reflexivity.
Qed.

Lemma scan_records (r : list string) (rs : list (list string)) done :
  scan_csv AtRecord done [] ""
    (Sample.join (String Markdown.newline "")
       (map (Sample.join (String Markdown.comma ""))
            (map (map Markdown.wrap) (r :: rs))))
  = Some (done ++ r :: rs).
Proof.
  revert r done. induction rs as [|r2 rs IH]; intros r done.
  - cbn [map Sample.join].
    rewrite <- (str_app_nil_r (Sample.join _ (map Markdown.wrap r))).
    rewrite scan_record by reflexivity. reflexivity.
  - change (map (map Markdown.wrap) (r :: r2 :: rs))
      with (map Markdown.wrap r :: map (map Markdown.wrap) (r2 :: rs)).
    change (map ?f (map Markdown.wrap r :: ?tl)) with (f (map Markdown.wrap r) :: map f tl).
    change (Sample.join ?sep (?a :: map ?f (map (map Markdown.wrap) (r2 :: rs))))
      with (a +:+ sep +:+ Sample.join sep (map f (map (map Markdown.wrap) (r2 :: rs)))).
    set (tail := Sample.join _ (map _ (map (map Markdown.wrap) (r2 :: rs)))) in *.
    rewrite str_app_cons, str_app_nil_l.
    rewrite scan_record by reflexivity. cbn [after_record].
    subst tail. rewrite IH, <- app_assoc. reflexivity.
Qed.

(** X26: the exported CSV reads back.  The file starts with the byte
    order mark; what follows, read as CSV, is exactly the header texts
    and then, row by row, the joined token texts of the cells -- also
    when a cell holds quotation marks, commas or line feeds, and when a
    row or the header has no cell. *)
Theorem exported_csv_reads_back `{Engine}
    (id : string) (token : Markdown.TableToken) (tokenIdx : Z) :
  exists body,
    (Markdown.exportTableToCSVHandler id token tokenIdx).2 = Markdown.bom +:+ body
    /\ read_csv body = Some (exported_texts token).
Proof.
  exists (Markdown.csvContent token). split; [reflexivity|].
  unfold read_csv, Markdown.csvContent, exported_texts. cbn zeta.
  rewrite <- (map_map Markdown.text Markdown.wrap).
  rewrite <- (map_ext _ _ (fun row => map_map Markdown.cellContent Markdown.wrap row)).
  rewrite <- (map_map (map Markdown.cellContent) (map Markdown.wrap)).
  apply (scan_records (map Markdown.text (Markdown.header token))
           (map (map Markdown.cellContent) (Markdown.rows token)) []).
Qed.

(** A table with awkward cells and an empty row. *)
Example exported_csv_awkward :
  read_csv (Markdown.csvContent awkward_table)
  = Some [["name, first"; "note"];
          [String Markdown.dquote "Ann" +:+ String Markdown.dquote "";
           "two" +:+ String Markdown.newline "lines"];
          []].
Proof. reflexivity. Qed.

Lemma slice_length {A : Type} (from to : nat) (l : list A) :
  (to <= length l)%nat -> length (Markdown.slice from to l) = (to - from)%nat.
Proof. intros Hto. unfold Markdown.slice. rewrite length_take, length_drop. lia. Qed.

(** X27: a body row is cut to the width of the header.  A row with no
    more cells than the header is shown as it is; a longer row is shown
    with exactly as many cells as the header has, taken in order from
    the second cell on when the first cell is blank and from the first
    cell otherwise. *)
Theorem normalizedRow_fits_header `{Engine}
    (headerCount : nat) (rawRow : list Markdown.Cell) :
  ((length rawRow <= headerCount)%nat ->
     Markdown.normalizedRow headerCount (Some rawRow) = rawRow)
  /\ ((headerCount < length rawRow)%nat ->
        length (Markdown.normalizedRow headerCount (Some rawRow)) = headerCount
        /\ Markdown.normalizedRow headerCount (Some rawRow)
           = take headerCount
               (drop (if Markdown.firstCellEmpty rawRow then 1 else 0)%nat rawRow))
  /\ Markdown.normalizedRow headerCount None = [].
Proof.
  unfold Markdown.normalizedRow. cbn zeta. split; [|split].
  - intros Hle. destruct (Z.ltb_spec (Z.of_nat headerCount) (Z.of_nat (length rawRow)));
      [lia|]. rewrite andb_false_r. reflexivity.
  - intros Hlt. destruct (Z.ltb_spec (Z.of_nat headerCount) (Z.of_nat (length rawRow)));
      [|lia]. rewrite andb_true_r.
    destruct (Markdown.firstCellEmpty rawRow).
    + split; [rewrite slice_length; lia|].
      unfold Markdown.slice. f_equal. lia.
    + split; [rewrite slice_length; lia|].
      unfold Markdown.slice. f_equal. lia.
  - destruct (Z.ltb_spec (Z.of_nat headerCount) (Z.of_nat (length (@nil Markdown.Cell))));
      [cbn in *; lia|]. rewrite andb_false_r. reflexivity.
Qed.

Lemma normalizedRow_fits_header_witness :
  @Markdown.normalizedRow Sample.engine 2
     (Some [plain_cell " "; plain_cell "a"; plain_cell "b"])
  = [plain_cell "a"; plain_cell "b"]
  /\ @Markdown.normalizedRow Sample.engine 2 (Some [plain_cell "a"])
     = [plain_cell "a"].
Proof.
  destruct (@normalizedRow_fits_header Sample.engine 2
              [plain_cell " "; plain_cell "a"; plain_cell "b"]) as (_ & Hlong & _).
  destruct (@normalizedRow_fits_header Sample.engine 2 [plain_cell "a"]) as (Hshort & _).
  split.
  - destruct Hlong as [_ ->]; [cbn; lia | reflexivity].
  - apply Hshort. cbn. lia.
Defined.

(** ** The build-and-run script *)

Lemma parse_flags (args : list string) (flags : BuildScript.Flags) :
  let out := fold_left BuildScript.case_arg args flags in
  BuildScript.WITH_N8N out
    = BuildScript.WITH_N8N flags || existsb (fun a => String.eqb a "--with-n8n") args
  /\ BuildScript.DEV_MODE out
     = BuildScript.DEV_MODE flags || existsb (fun a => String.eqb a "--dev") args
  /\ BuildScript.BUILD_ONLY out
     = BuildScript.BUILD_ONLY flags || existsb (fun a => String.eqb a "--build-only") args
  /\ BuildScript.SLIM_BUILD out
     = BuildScript.SLIM_BUILD flags || existsb (fun a => String.eqb a "--slim") args.
Proof.
  revert flags. induction args as [|a args IH]; intros flags; cbn zeta.
  - cbn. rewrite !orb_false_r. repeat split.
  - cbn [fold_left existsb]. specialize (IH (BuildScript.case_arg flags a)).
    cbn zeta in IH. destruct IH as (-> & -> & -> & ->).
    unfold BuildScript.case_arg.
    destruct (String.eqb_spec a "--with-n8n") as [->|]; cbn;
      [rewrite ?orb_true_r; repeat split; reflexivity|].
    destruct (String.eqb_spec a "--dev") as [->|]; cbn;
      [rewrite ?orb_true_r; repeat split; reflexivity|].
    destruct (String.eqb_spec a "--build-only") as [->|]; cbn;
      [rewrite ?orb_true_r; repeat split; reflexivity|].
    destruct (String.eqb_spec a "--slim") as [->|]; cbn;
      [rewrite ?orb_true_r; repeat split; reflexivity|].
    repeat split.
Qed.

Lemma existsb_eqb_In (k : string) (args : list string) :
  existsb (fun a => String.eqb a k) args = true <-> In k args.
Proof.
  rewrite existsb_exists. split.
  - intros (a & Hin & E). apply String.eqb_eq in E. subst. exact Hin.
  - intros Hin. exists k. split; [exact Hin | apply String.eqb_refl].
Qed.

Lemma parse_by_flags_aux (args : list string) :
  (In "--with-n8n" args -> BuildScript.WITH_N8N (BuildScript.parse args) = true)
  /\ (In "--dev" args -> BuildScript.DEV_MODE (BuildScript.parse args) = true)
  /\ (In "--build-only" args -> BuildScript.BUILD_ONLY (BuildScript.parse args) = true)
  /\ (In "--slim" args -> BuildScript.SLIM_BUILD (BuildScript.parse args) = true).
Proof.
  destruct (parse_flags args BuildScript.initial) as (H1 & H2 & H3 & H4).
  unfold BuildScript.parse. cbn zeta in *. rewrite H1, H2, H3, H4. cbn [orb BuildScript.initial
    BuildScript.WITH_N8N BuildScript.DEV_MODE BuildScript.BUILD_ONLY BuildScript.SLIM_BUILD].
  repeat split; apply existsb_eqb_In.
Qed.

(** X28: a switch is on exactly when its option occurs among the
    arguments: the order of the arguments, repetitions and arguments the
    script does not know make no difference. *)
Theorem parse_by_occurrence (args : list string) :
  (BuildScript.WITH_N8N (BuildScript.parse args) = true <-> In "--with-n8n" args)
  /\ (BuildScript.DEV_MODE (BuildScript.parse args) = true <-> In "--dev" args)
  /\ (BuildScript.BUILD_ONLY (BuildScript.parse args) = true <-> In "--build-only" args)
  /\ (BuildScript.SLIM_BUILD (BuildScript.parse args) = true <-> In "--slim" args).
Proof.
  destruct (parse_flags args BuildScript.initial) as (H1 & H2 & H3 & H4).
  unfold BuildScript.parse. cbn zeta in *. rewrite H1, H2, H3, H4. cbn [orb BuildScript.initial
    BuildScript.WITH_N8N BuildScript.DEV_MODE BuildScript.BUILD_ONLY BuildScript.SLIM_BUILD].
  repeat split; apply existsb_eqb_In.
Qed.

(** X29: what a run of the script does.  Without docker or docker
    compose it runs nothing and fails.  All commands it runs name the
    same compose file, the development one whenever [--dev] is given
    (also together with [--with-n8n]).  With [--build-only] it never
    starts the services; it starts them only after a build that
    succeeded; and it announces addresses only when it exits with
    status 0 after starting them. *)
Theorem main_run (host : BuildScript.Host) (args : list string) :
  let r := BuildScript.main host args in
  (BuildScript.docker host = false \/ BuildScript.compose host = false ->
     BuildScript.ran r = [] /\ BuildScript.exit_zero r = false)
  /\ (forall c, In c (BuildScript.ran r) ->
        BuildScript.file_of c = BuildScript.COMPOSE_FILE (BuildScript.parse args))
  /\ (In "--dev" args ->
      forall c, In c (BuildScript.ran r) ->
                BuildScript.file_of c = "docker-compose.dev.yaml")
  /\ (In "--build-only" args -> forall f, ~ In (BuildScript.Up f) (BuildScript.ran r))
  /\ (forall f, In (BuildScript.Up f) (BuildScript.ran r) ->
        exists a, In (BuildScript.Build f a) (BuildScript.ran r)
                  /\ BuildScript.succeeds host (BuildScript.Build f a) = true)
  /\ (BuildScript.announced r <> [] ->
      BuildScript.exit_zero r = true
      /\ In (BuildScript.Up (BuildScript.COMPOSE_FILE (BuildScript.parse args)))
            (BuildScript.ran r)).
Proof.
  cbn zeta.
  assert (Hfile : forall c, In c (BuildScript.ran (BuildScript.main host args)) ->
            BuildScript.file_of c = BuildScript.COMPOSE_FILE (BuildScript.parse args)).
  { unfold BuildScript.main. cbn zeta.
    destruct (BuildScript.docker host), (BuildScript.compose host); cbn; try tauto.
    destruct (BuildScript.succeeds host (BuildScript.Build _ _)); cbn;
      [|intros c [<-|[]]; reflexivity].
    destruct (BuildScript.BUILD_ONLY _); cbn; [intros c [<-|[]]; reflexivity|].
    destruct (BuildScript.succeeds host (BuildScript.Up _)); cbn;
      intros c [<-|[<-|[]]]; reflexivity. }
  split; [|split; [exact Hfile|split; [|split; [|split]]]].
  - unfold BuildScript.main. cbn zeta. intros [-> | ->]; cbn.
    + auto.
    + destruct (BuildScript.docker host); auto.
  - intros Hdev c Hc. rewrite (Hfile c Hc). unfold BuildScript.COMPOSE_FILE.
    apply (proj1 (proj2 (parse_by_flags_aux args))) in Hdev. rewrite Hdev. reflexivity.
  - intros Hbo f. apply (proj1 (proj2 (proj2 (parse_by_flags_aux args)))) in Hbo.
    unfold BuildScript.main. cbn zeta. rewrite Hbo.
    destruct (BuildScript.docker host), (BuildScript.compose host); cbn; try tauto.
    destruct (BuildScript.succeeds host (BuildScript.Build _ _)); cbn;
      intros [E|[]]; discriminate.
  - intros f. unfold BuildScript.main. cbn zeta.
    destruct (BuildScript.docker host), (BuildScript.compose host); cbn; try tauto.
    destruct (BuildScript.succeeds host (BuildScript.Build _ _)) eqn:Hb; cbn;
      [|intros [E|[]]; discriminate].
    destruct (BuildScript.BUILD_ONLY _); cbn; [intros [E|[]]; discriminate|].
    destruct (BuildScript.succeeds host (BuildScript.Up _)); cbn;
      (intros [E|[E|[]]]; [discriminate|]); injection E as <-; eauto.
  - unfold BuildScript.main. cbn zeta.
    destruct (BuildScript.docker host), (BuildScript.compose host); cbn; try congruence.
    destruct (BuildScript.succeeds host (BuildScript.Build _ _)); cbn; [|congruence].
    destruct (BuildScript.BUILD_ONLY _); cbn; [congruence|].
    destruct (BuildScript.succeeds host (BuildScript.Up _)); cbn; [auto | congruence].
Qed.

Lemma main_run_witness :
  ~ In (BuildScript.Up "docker-compose.dev.yaml")
       (BuildScript.ran (BuildScript.main good_host ["--with-n8n"; "--dev"; "--build-only"]))
  /\ BuildScript.file_of (BuildScript.Build "docker-compose.dev.yaml" [])
     = "docker-compose.dev.yaml".
Proof.
  destruct (main_run good_host ["--with-n8n"; "--dev"; "--build-only"])
    as (_ & _ & Hdev & Hbo & _).
  split.
  - apply Hbo. right; right; left; reflexivity.
  - apply Hdev; [right; left; reflexivity | left; reflexivity].
Defined.
